(** * Miniflux feed ingestion: refresh, processing, scraping and feed edit

    A shallow embedding of
      - reader/feed      (Handler.CreateFeed, Handler.RefreshFeed),
      - reader/processor (FeedProcessor.Process),
      - reader/scraper   (Fetch, scrapContent, getPredefinedScraperRules),
      - storage/feed.go  (FeedByID, UpdateFeed, CreateFeed, FeedURLExists),
      - ui/form/feed.go  (FeedForm.Merge, FeedForm.ValidateModification),
    and the properties of them that the specification states.

    The Go code talks to the network, the clock and a SQL database.  Those
    are kept outside: every call that leaves the program is a field of the
    record [Env], it reads and updates an abstract state of the outside
    world, and it is appended to a trace.  Logging (package logger) and timing
    (timer.ExecutionTime) change nothing the program can see and are left
    out. *)

From Stdlib Require Import ZArith String List Bool Lia Permutation.
From stdpp Require Import base option gmap strings list.

Local Open Scope Z_scope.
Local Open Scope string_scope.
Local Open Scope list_scope.

(** ** Go values *)

(** Go's [int] and [int64] are 64 bits wide here; [x++] wraps around. *)
Definition int_min : Z := - 2 ^ 63.
Definition int_max : Z := 2 ^ 63 - 1.
Definition wrap_int (z : Z) : Z := (z + 2 ^ 63) mod 2 ^ 64 - 2 ^ 63.
Definition int_incr (z : Z) : Z := wrap_int (z + 1).

(** time.Time, as an instant. *)
Definition Time : Type := Z.

(** strings.Contains(s, substr) *)
Fixpoint strings_Contains (s substr : string) : bool :=
  String.prefix substr s ||
  match s with
  | EmptyString => false
  | String _ s' => strings_Contains s' substr
  end.

(** Go errors.  [Localized] is a *errors.LocalizedError made by
    errors.NewLocalizedError(message, args...); [Errorf] is any other error
    value, as fmt.Errorf(format, args...) and errors.New(text) make them. *)
Inductive LocalizedError : Type :=
| NewLocalizedError (message : string) (args : list arg)
with arg : Type :=
| ArgInt (n : Z)
| ArgString (s : string)
| ArgError (e : error)
with error : Type :=
| Localized (l : LocalizedError)
| Errorf (format : string) (args : list arg).

Definition message_of (l : LocalizedError) : string :=
  match l with NewLocalizedError m _ => m end.

(** A Go result pair (value, err) of which the caller reads one side. *)
Inductive result (A : Type) : Type :=
| Ok (a : A)
| Err (e : error).
Arguments Ok {A} a.
Arguments Err {A} e.

(** The messages of reader/feed. *)
Definition errRequestFailed : string := "Unable to execute request: %v".
Definition errServerFailure : string := "Unable to fetch feed (Status Code = %d)".
Definition errDuplicate : string := "This feed already exists (%s)".
Definition errNotFound : string := "Feed %d not found".
Definition errEncoding : string := "Unable to normalize encoding: %q".
Definition errCategoryNotFound : string := "Category not found for this user".
Definition errEmptyFeed : string := "This feed is empty".
Definition errResourceNotFound : string :=
  "Resource not found (404), this feed doesn't exists anymore, check the feed URL".

(** ** The data model (package model) *)

Module Category.
Record t : Type := mk { ID : Z; Title : string; UserID : Z }.
Definition withID (v : Z) (x : t) : t := {| ID := v; Title := Title x; UserID := UserID x |}.
End Category.

Module FeedIcon.
Record t : Type := mk { FeedID : Z; IconID : Z }.
End FeedIcon.

Module Entry.
(** model.Entry: the fields this code touches. *)
Record t : Type := mk {
  UserID : Z;
  FeedID : Z;
  URL : string;
  Content : string
}.

Definition withUserID (v : Z) (x : t) : t :=
  {| UserID := v; FeedID := FeedID x; URL := URL x; Content := Content x |}.
Definition withFeedID (v : Z) (x : t) : t :=
  {| UserID := UserID x; FeedID := v; URL := URL x; Content := Content x |}.
Definition withContent (v : string) (x : t) : t :=
  {| UserID := UserID x; FeedID := FeedID x; URL := URL x; Content := v |}.
End Entry.

Module Feed.
(** model.Feed, with the fields the storage and handler code reads and writes. *)
Record t : Type := mk {
  ID : Z;
  UserID : Z;
  FeedURL : string;
  SiteURL : string;
  Title : string;
  CheckedAt : Time;
  EtagHeader : string;
  LastModifiedHeader : string;
  ParsingErrorMsg : string;
  ParsingErrorCount : Z;  (* Go int, see int_incr *)
  ScraperRules : string;
  RewriteRules : string;
  Cookies : gmap string string;
  Crawler : bool;
  Username : string;
  Password : string;
  Category : option Category.t;  (* *model.Category, nil is None *)
  Icon : option FeedIcon.t;  (* *model.FeedIcon, nil is None *)
  Entries : list Entry.t  (* model.Entries, a slice of *model.Entry *)
}.

Definition withID (v : Z) (x : t) : t :=
  {| ID := v; UserID := UserID x; FeedURL := FeedURL x; SiteURL := SiteURL x; Title := Title x;
  CheckedAt := CheckedAt x; EtagHeader := EtagHeader x; LastModifiedHeader := LastModifiedHeader
  x; ParsingErrorMsg := ParsingErrorMsg x; ParsingErrorCount := ParsingErrorCount x; ScraperRules
  := ScraperRules x; RewriteRules := RewriteRules x; Cookies := Cookies x; Crawler := Crawler x;
  Username := Username x; Password := Password x; Category := Category x; Icon := Icon x; Entries
  := Entries x |}.
Definition withUserID (v : Z) (x : t) : t :=
  {| ID := ID x; UserID := v; FeedURL := FeedURL x; SiteURL := SiteURL x; Title := Title x;
  CheckedAt := CheckedAt x; EtagHeader := EtagHeader x; LastModifiedHeader := LastModifiedHeader
  x; ParsingErrorMsg := ParsingErrorMsg x; ParsingErrorCount := ParsingErrorCount x; ScraperRules
  := ScraperRules x; RewriteRules := RewriteRules x; Cookies := Cookies x; Crawler := Crawler x;
  Username := Username x; Password := Password x; Category := Category x; Icon := Icon x; Entries
  := Entries x |}.
Definition withFeedURL (v : string) (x : t) : t :=
  {| ID := ID x; UserID := UserID x; FeedURL := v; SiteURL := SiteURL x; Title := Title x;
  CheckedAt := CheckedAt x; EtagHeader := EtagHeader x; LastModifiedHeader := LastModifiedHeader
  x; ParsingErrorMsg := ParsingErrorMsg x; ParsingErrorCount := ParsingErrorCount x; ScraperRules
  := ScraperRules x; RewriteRules := RewriteRules x; Cookies := Cookies x; Crawler := Crawler x;
  Username := Username x; Password := Password x; Category := Category x; Icon := Icon x; Entries
  := Entries x |}.
Definition withSiteURL (v : string) (x : t) : t :=
  {| ID := ID x; UserID := UserID x; FeedURL := FeedURL x; SiteURL := v; Title := Title x;
  CheckedAt := CheckedAt x; EtagHeader := EtagHeader x; LastModifiedHeader := LastModifiedHeader
  x; ParsingErrorMsg := ParsingErrorMsg x; ParsingErrorCount := ParsingErrorCount x; ScraperRules
  := ScraperRules x; RewriteRules := RewriteRules x; Cookies := Cookies x; Crawler := Crawler x;
  Username := Username x; Password := Password x; Category := Category x; Icon := Icon x; Entries
  := Entries x |}.
Definition withTitle (v : string) (x : t) : t :=
  {| ID := ID x; UserID := UserID x; FeedURL := FeedURL x; SiteURL := SiteURL x; Title := v;
  CheckedAt := CheckedAt x; EtagHeader := EtagHeader x; LastModifiedHeader := LastModifiedHeader
  x; ParsingErrorMsg := ParsingErrorMsg x; ParsingErrorCount := ParsingErrorCount x; ScraperRules
  := ScraperRules x; RewriteRules := RewriteRules x; Cookies := Cookies x; Crawler := Crawler x;
  Username := Username x; Password := Password x; Category := Category x; Icon := Icon x; Entries
  := Entries x |}.
Definition withCheckedAt (v : Time) (x : t) : t :=
  {| ID := ID x; UserID := UserID x; FeedURL := FeedURL x; SiteURL := SiteURL x; Title := Title x;
  CheckedAt := v; EtagHeader := EtagHeader x; LastModifiedHeader := LastModifiedHeader x;
  ParsingErrorMsg := ParsingErrorMsg x; ParsingErrorCount := ParsingErrorCount x; ScraperRules :=
  ScraperRules x; RewriteRules := RewriteRules x; Cookies := Cookies x; Crawler := Crawler x;
  Username := Username x; Password := Password x; Category := Category x; Icon := Icon x; Entries
  := Entries x |}.
Definition withEtagHeader (v : string) (x : t) : t :=
  {| ID := ID x; UserID := UserID x; FeedURL := FeedURL x; SiteURL := SiteURL x; Title := Title x;
  CheckedAt := CheckedAt x; EtagHeader := v; LastModifiedHeader := LastModifiedHeader x;
  ParsingErrorMsg := ParsingErrorMsg x; ParsingErrorCount := ParsingErrorCount x; ScraperRules :=
  ScraperRules x; RewriteRules := RewriteRules x; Cookies := Cookies x; Crawler := Crawler x;
  Username := Username x; Password := Password x; Category := Category x; Icon := Icon x; Entries
  := Entries x |}.
Definition withLastModifiedHeader (v : string) (x : t) : t :=
  {| ID := ID x; UserID := UserID x; FeedURL := FeedURL x; SiteURL := SiteURL x; Title := Title x;
  CheckedAt := CheckedAt x; EtagHeader := EtagHeader x; LastModifiedHeader := v; ParsingErrorMsg
  := ParsingErrorMsg x; ParsingErrorCount := ParsingErrorCount x; ScraperRules := ScraperRules x;
  RewriteRules := RewriteRules x; Cookies := Cookies x; Crawler := Crawler x; Username := Username
  x; Password := Password x; Category := Category x; Icon := Icon x; Entries := Entries x |}.
Definition withParsingErrorMsg (v : string) (x : t) : t :=
  {| ID := ID x; UserID := UserID x; FeedURL := FeedURL x; SiteURL := SiteURL x; Title := Title x;
  CheckedAt := CheckedAt x; EtagHeader := EtagHeader x; LastModifiedHeader := LastModifiedHeader
  x; ParsingErrorMsg := v; ParsingErrorCount := ParsingErrorCount x; ScraperRules := ScraperRules
  x; RewriteRules := RewriteRules x; Cookies := Cookies x; Crawler := Crawler x; Username :=
  Username x; Password := Password x; Category := Category x; Icon := Icon x; Entries := Entries x
  |}.
Definition withParsingErrorCount (v : Z) (x : t) : t :=
  {| ID := ID x; UserID := UserID x; FeedURL := FeedURL x; SiteURL := SiteURL x; Title := Title x;
  CheckedAt := CheckedAt x; EtagHeader := EtagHeader x; LastModifiedHeader := LastModifiedHeader
  x; ParsingErrorMsg := ParsingErrorMsg x; ParsingErrorCount := v; ScraperRules := ScraperRules x;
  RewriteRules := RewriteRules x; Cookies := Cookies x; Crawler := Crawler x; Username := Username
  x; Password := Password x; Category := Category x; Icon := Icon x; Entries := Entries x |}.
Definition withScraperRules (v : string) (x : t) : t :=
  {| ID := ID x; UserID := UserID x; FeedURL := FeedURL x; SiteURL := SiteURL x; Title := Title x;
  CheckedAt := CheckedAt x; EtagHeader := EtagHeader x; LastModifiedHeader := LastModifiedHeader
  x; ParsingErrorMsg := ParsingErrorMsg x; ParsingErrorCount := ParsingErrorCount x; ScraperRules
  := v; RewriteRules := RewriteRules x; Cookies := Cookies x; Crawler := Crawler x; Username :=
  Username x; Password := Password x; Category := Category x; Icon := Icon x; Entries := Entries x
  |}.
Definition withRewriteRules (v : string) (x : t) : t :=
  {| ID := ID x; UserID := UserID x; FeedURL := FeedURL x; SiteURL := SiteURL x; Title := Title x;
  CheckedAt := CheckedAt x; EtagHeader := EtagHeader x; LastModifiedHeader := LastModifiedHeader
  x; ParsingErrorMsg := ParsingErrorMsg x; ParsingErrorCount := ParsingErrorCount x; ScraperRules
  := ScraperRules x; RewriteRules := v; Cookies := Cookies x; Crawler := Crawler x; Username :=
  Username x; Password := Password x; Category := Category x; Icon := Icon x; Entries := Entries x
  |}.
Definition withCookies (v : gmap string string) (x : t) : t :=
  {| ID := ID x; UserID := UserID x; FeedURL := FeedURL x; SiteURL := SiteURL x; Title := Title x;
  CheckedAt := CheckedAt x; EtagHeader := EtagHeader x; LastModifiedHeader := LastModifiedHeader
  x; ParsingErrorMsg := ParsingErrorMsg x; ParsingErrorCount := ParsingErrorCount x; ScraperRules
  := ScraperRules x; RewriteRules := RewriteRules x; Cookies := v; Crawler := Crawler x; Username
  := Username x; Password := Password x; Category := Category x; Icon := Icon x; Entries :=
  Entries x |}.
Definition withCrawler (v : bool) (x : t) : t :=
  {| ID := ID x; UserID := UserID x; FeedURL := FeedURL x; SiteURL := SiteURL x; Title := Title x;
  CheckedAt := CheckedAt x; EtagHeader := EtagHeader x; LastModifiedHeader := LastModifiedHeader
  x; ParsingErrorMsg := ParsingErrorMsg x; ParsingErrorCount := ParsingErrorCount x; ScraperRules
  := ScraperRules x; RewriteRules := RewriteRules x; Cookies := Cookies x; Crawler := v; Username
  := Username x; Password := Password x; Category := Category x; Icon := Icon x; Entries :=
  Entries x |}.
Definition withUsername (v : string) (x : t) : t :=
  {| ID := ID x; UserID := UserID x; FeedURL := FeedURL x; SiteURL := SiteURL x; Title := Title x;
  CheckedAt := CheckedAt x; EtagHeader := EtagHeader x; LastModifiedHeader := LastModifiedHeader
  x; ParsingErrorMsg := ParsingErrorMsg x; ParsingErrorCount := ParsingErrorCount x; ScraperRules
  := ScraperRules x; RewriteRules := RewriteRules x; Cookies := Cookies x; Crawler := Crawler x;
  Username := v; Password := Password x; Category := Category x; Icon := Icon x; Entries :=
  Entries x |}.
Definition withPassword (v : string) (x : t) : t :=
  {| ID := ID x; UserID := UserID x; FeedURL := FeedURL x; SiteURL := SiteURL x; Title := Title x;
  CheckedAt := CheckedAt x; EtagHeader := EtagHeader x; LastModifiedHeader := LastModifiedHeader
  x; ParsingErrorMsg := ParsingErrorMsg x; ParsingErrorCount := ParsingErrorCount x; ScraperRules
  := ScraperRules x; RewriteRules := RewriteRules x; Cookies := Cookies x; Crawler := Crawler x;
  Username := Username x; Password := v; Category := Category x; Icon := Icon x; Entries :=
  Entries x |}.
Definition withCategory (v : option Category.t) (x : t) : t :=
  {| ID := ID x; UserID := UserID x; FeedURL := FeedURL x; SiteURL := SiteURL x; Title := Title x;
  CheckedAt := CheckedAt x; EtagHeader := EtagHeader x; LastModifiedHeader := LastModifiedHeader
  x; ParsingErrorMsg := ParsingErrorMsg x; ParsingErrorCount := ParsingErrorCount x; ScraperRules
  := ScraperRules x; RewriteRules := RewriteRules x; Cookies := Cookies x; Crawler := Crawler x;
  Username := Username x; Password := Password x; Category := v; Icon := Icon x; Entries :=
  Entries x |}.
Definition withEntries (v : list Entry.t) (x : t) : t :=
  {| ID := ID x; UserID := UserID x; FeedURL := FeedURL x; SiteURL := SiteURL x; Title := Title x;
  CheckedAt := CheckedAt x; EtagHeader := EtagHeader x; LastModifiedHeader := LastModifiedHeader
  x; ParsingErrorMsg := ParsingErrorMsg x; ParsingErrorCount := ParsingErrorCount x; ScraperRules
  := ScraperRules x; RewriteRules := RewriteRules x; Cookies := Cookies x; Crawler := Crawler x;
  Username := Username x; Password := Password x; Category := Category x; Icon := Icon x; Entries
  := v |}.
End Feed.
Definition Category := Category.t.
Definition FeedIcon := FeedIcon.t.
Definition Entry := Entry.t.
Definition Feed := Feed.t.

(** The zero value of model.Feed, as [var feed model.Feed] gives it. *)
Definition zeroFeed : Feed :=
  {| Feed.ID := 0; Feed.UserID := 0; Feed.FeedURL := ""; Feed.SiteURL := ""; Feed.Title := "";
     Feed.CheckedAt := 0; Feed.EtagHeader := ""; Feed.LastModifiedHeader := "";
     Feed.ParsingErrorMsg := ""; Feed.ParsingErrorCount := 0; Feed.ScraperRules := "";
     Feed.RewriteRules := ""; Feed.Cookies := ∅; Feed.Crawler := false; Feed.Username := "";
     Feed.Password := ""; Feed.Category := None; Feed.Icon := None; Feed.Entries := [] |}.

(** ** The HTTP client (package http/client) *)

(** What a client is built from: client.New(url) and the With* calls. *)
Module Client.
Record t : Type := mk {
  url : string;
  username : string;
  password : string;
  etagHeader : string;
  lastModifiedHeader : string;
  cookies : gmap string string
}.
Definition New (u : string) : t :=
  {| url := u; username := ""; password := ""; etagHeader := ""; lastModifiedHeader := "";
     cookies := ∅ |}.
Definition WithCredentials (user pass : string) (c : t) : t :=
  {| url := url c; username := user; password := pass; etagHeader := etagHeader c;
     lastModifiedHeader := lastModifiedHeader c; cookies := cookies c |}.
Definition WithCacheHeaders (etag lastModified : string) (c : t) : t :=
  {| url := url c; username := username c; password := password c; etagHeader := etag;
     lastModifiedHeader := lastModified; cookies := cookies c |}.
Definition WithCookies (ck : gmap string string) (c : t) : t :=
  {| url := url c; username := username c; password := password c;
     etagHeader := etagHeader c; lastModifiedHeader := lastModifiedHeader c; cookies := ck |}.
End Client.

(** client.Response: the fields the code reads.  ContentLength is -1 when
    the response has no Content-Length header. *)
Module Response.
Record t : Type := mk {
  StatusCode : Z;
  ContentLength : Z;
  ContentType : string;
  EffectiveURL : string;
  ETag : string;
  LastModified : string;
  Body : string
}.
End Response.
Definition Response := Response.t.

(** ** The feeds table *)

(** sql.NullString and the hstore column type of lib/pq. *)
Record NullString : Type := mkNullString { NullString_String : string; Valid : bool }.
Definition Hstore : Type := gmap string NullString.

(** The seventeen columns of [feeds] that FeedByID selects and UpdateFeed
    writes back. *)
Module Row.
Record t : Type := mk {
  id : Z;
  user_id : Z;
  feed_url : string;
  site_url : string;
  title : string;
  category_id : Z;
  etag_header : string;
  last_modified_header : string;
  checked_at : Time;
  parsing_error_msg : string;
  parsing_error_count : Z;
  scraper_rules : string;
  rewrite_rules : string;
  cookies : Hstore;
  crawler : bool;
  username : string;
  password : string
}.
End Row.

(** What QueryRow(...).Scan(...) leaves in FeedByID: no row, another
    failure, or the scanned columns, the three joined ones included. *)
Inductive FeedScan : Type :=
| ErrNoRows
| ScanFailed (e : error)
| Scanned (row : Row.t) (category_title : string) (icon_id : option Z) (tz : string).

(** The ten values of the INSERT of storage.CreateFeed. *)
Record NewFeedRow : Type := mkNewFeedRow {
  new_feed_url : string;
  new_site_url : string;
  new_title : string;
  new_category_id : Z;
  new_user_id : Z;
  new_etag_header : string;
  new_last_modified_header : string;
  new_crawler : bool;
  new_username : string;
  new_password : string
}.

(** ** The outside world *)

(** Everything the five source files call and do not define.  [X] is the
    state of the outside world (network, clock, database), which every call
    that leaves the program may read and change; the other fields are
    functions of their arguments.  The types [Icon], [Language], [Document]
    and [Selection] belong to packages model, locale and goquery. *)
Record Env : Type := {
  X : Type;
  Icon : Type;
  Language : Type;
  Document : Type;
  Selection : Type;

  (* package http/client *)
  client_Get : Client.t -> X -> result Response * X;
  HasServerFailure : Response -> bool;
  IsNotFound : Response -> bool;
  IsModified : Response -> string -> string -> bool;
  NormalizeBodyEncoding : Response -> result string;

  (* time.Now, timezone.Convert *)
  time_Now : X -> Time * X;
  timezone_Convert : string -> Time -> Time;

  (* package locale and LocalizedError.Localize *)
  GetLanguage : string -> Language;
  Localize : LocalizedError -> Language -> string;

  (* parseFeed of reader/feed, rewrite.Rewriter, sanitizer.Sanitize,
     readability.ExtractContent, url.Domain, icon.FindIcon *)
  parseFeed : string -> Feed + LocalizedError;
  Rewriter : string -> string -> string -> string;
  Sanitize : string -> string -> string;
  ExtractContent : string -> result string;
  url_Domain : string -> string;
  icon_FindIcon : string -> X -> result (option Icon) * X;

  (* the table predefinedRules of reader/scraper, a Go map, and the order
     in which the runtime walks it at one range statement *)
  predefinedRules : gmap string string;
  range_predefinedRules : X -> list (string * string) * X;

  (* goquery: NewDocumentFromReader, Find (the matched nodes, one selection
     each, in the order Each visits them), Is, Parent, Html *)
  NewDocumentFromReader : string -> result Document;
  Find : Document -> string -> list Selection;
  Is : Selection -> string -> bool;
  Parent : Selection -> Selection;
  Html : Selection -> string * option error;

  (* storage functions defined in files other than storage/feed.go *)
  store_UserLanguage : Z -> X -> result string * X;
  store_CategoryExists : Z -> Z -> X -> bool * X;
  store_EntryURLExists : Z -> string -> X -> bool * X;
  store_UpdateEntries : Z -> Z -> list Entry -> bool -> X -> option error * X;
  store_HasIcon : Z -> X -> bool * X;
  store_CreateFeedIcon : Feed -> option Icon -> X -> option error * X;
  store_createEntry : Entry -> X -> option error * X;

  (* database/sql: the statements of storage/feed.go *)
  db_count_feed_url : Z -> string -> X -> result Z * X;
  db_select_feed : Z -> Z -> X -> FeedScan * X;
  db_insert_feed : NewFeedRow -> X -> result Z * X;
  db_update_feed : Row.t -> X -> option error * X
}.

(** One entry of the trace per call that leaves the program, with its
    arguments.  parseFeed, Rewriter and Sanitize are functions of their
    arguments and are recorded too.  EntryURLExists is recorded with its
    answer, on which the pipeline branches. *)
Inductive Event (E : Env) : Type :=
| EvGet (c : Client.t)
| EvNow
| EvFindIcon (siteURL : string)
| EvRangeRules
| EvParseFeed (body : string)
| EvRewriter (url content rules : string)
| EvSanitize (url content : string)
| EvUserLanguage (userID : Z)
| EvCategoryExists (userID categoryID : Z)
| EvEntryURLExists (userID : Z) (url : string) (answer : bool)
| EvUpdateEntries (userID feedID : Z) (entries : list Entry) (updateExistingEntries : bool)
| EvHasIcon (feedID : Z)
| EvCreateFeedIcon (feed : Feed) (icon : option (Icon E))
| EvCreateEntry (entry : Entry)
| EvCountFeedURL (userID : Z) (feedURL : string)
| EvSelectFeed (userID feedID : Z)
| EvInsertFeed (row : NewFeedRow)
| EvUpdateFeed (row : Row.t).
Arguments EvGet {E} c.
Arguments EvNow {E}.
Arguments EvFindIcon {E} siteURL.
Arguments EvRangeRules {E}.
Arguments EvParseFeed {E} body.
Arguments EvRewriter {E} url content rules.
Arguments EvSanitize {E} url content.
Arguments EvUserLanguage {E} userID.
Arguments EvCategoryExists {E} userID categoryID.
Arguments EvEntryURLExists {E} userID url answer.
Arguments EvUpdateEntries {E} userID feedID entries updateExistingEntries.
Arguments EvHasIcon {E} feedID.
Arguments EvCreateFeedIcon {E} feed icon.
Arguments EvCreateEntry {E} entry.
Arguments EvCountFeedURL {E} userID feedURL.
Arguments EvSelectFeed {E} userID feedID.
Arguments EvInsertFeed {E} row.
Arguments EvUpdateFeed {E} row.

Record World (E : Env) : Type := mkWorld { ext : X E; trace : list (Event E) }.
Arguments mkWorld {E} ext trace.
Arguments ext {E} w.
Arguments trace {E} w.

(** ** The monad of the program: state, trace and Go panics *)

Inductive Outcome (A : Type) : Type :=
| Done (a : A)
| Panic.
Arguments Done {A} a.
Arguments Panic {A}.

Definition M (E : Env) (A : Type) : Type := World E -> Outcome A * World E.

Definition ret {E : Env} {A : Type} (a : A) : M E A := fun w => (Done a, w).

Definition bind {E : Env} {A B : Type} (m : M E A) (k : A -> M E B) : M E B :=
  fun w =>
    match m w with
    | (Done a, w') => k a w'
    | (Panic, w') => (Panic, w')
    end.

(** A nil pointer dereference. *)
Definition panic {E : Env} {A : Type} : M E A := fun w => (Panic, w).

(** A call that leaves the program. *)
Definition call {E : Env} {R : Type} (ev : Event E) (f : X E -> R * X E) : M E R :=
  fun w =>
    let (r, x') := f (ext w) in
    (Done r, {| ext := x'; trace := trace w ++ [ev] |}).

(** The same, recorded with its result. *)
Definition query {E : Env} {R : Type} (ev : R -> Event E) (f : X E -> R * X E) : M E R :=
  fun w =>
    let (r, x') := f (ext w) in
    (Done r, {| ext := x'; trace := trace w ++ [ev r] |}).

(** A call of a collaborator that is a function of its arguments. *)
Definition emit {E : Env} {R : Type} (ev : Event E) (r : R) : M E R :=
  fun w => (Done r, {| ext := ext w; trace := trace w ++ [ev] |}).

Declare Scope go_scope.
Delimit Scope go_scope with go.
Notation "x <- c ;; k" := (bind c (fun x => k))
  (at level 100, c at next level, right associativity) : go_scope.
Local Open Scope go_scope.

(** ** storage/feed.go *)

Module Storage.
Section Storage.
Variable E : Env.

(** hstore.Hstore of a cookie map, and back (the Valid entries only). *)
Definition hstore_of_cookies (cookies : gmap string string) : Hstore :=
  (fun value => {| NullString_String := value; Valid := true |}) <$> cookies.

Definition cookies_of_hstore (cookies : Hstore) : gmap string string :=
  omap (fun value => if Valid value then Some (NullString_String value) else None) cookies.

(** FeedURLExists: the Scan error is dropped and [result] stays 0. *)
Definition FeedURLExists (userID : Z) (feedURL : string) : M E bool :=
  r <- call (EvCountFeedURL userID feedURL) (db_count_feed_url E userID feedURL) ;;
  let result := match r with Ok c => c | Err _ => 0 end in
  ret (1 <=? result)%Z.

(** The feed that FeedByID builds from the scanned columns. *)
Definition scannedFeed (userID : Z) (row : Row.t) (category_title : string)
    (iconID : option Z) (tz : string) : Feed :=
  {| Feed.ID := Row.id row;
     Feed.UserID := Row.user_id row;
     Feed.FeedURL := Row.feed_url row;
     Feed.SiteURL := Row.site_url row;
     Feed.Title := Row.title row;
     Feed.CheckedAt := timezone_Convert E tz (Row.checked_at row);
     Feed.EtagHeader := Row.etag_header row;
     Feed.LastModifiedHeader := Row.last_modified_header row;
     Feed.ParsingErrorMsg := Row.parsing_error_msg row;
     Feed.ParsingErrorCount := Row.parsing_error_count row;
     Feed.ScraperRules := Row.scraper_rules row;
     Feed.RewriteRules := Row.rewrite_rules row;
     Feed.Cookies := cookies_of_hstore (Row.cookies row);
     Feed.Crawler := Row.crawler row;
     Feed.Username := Row.username row;
     Feed.Password := Row.password row;
     Feed.Category :=
       Some {| Category.ID := Row.category_id row; Category.Title := category_title;
               Category.UserID := userID |};
     Feed.Icon :=
       match iconID with
       | Some i => Some {| FeedIcon.FeedID := Row.id row; FeedIcon.IconID := i |}
       | None => None
       end;
     Feed.Entries := [] |}.

(** FeedByID returns the pair (feed, err) of the Go function. *)
Definition FeedByID (userID feedID : Z) : M E (option Feed * option error) :=
  r <- call (EvSelectFeed userID feedID) (db_select_feed E userID feedID) ;;
  match r with
  | ErrNoRows => ret (None, None)
  | ScanFailed err => ret (None, Some (Errorf "unable to fetch feed: %v" [ArgError err]))
  | Scanned row category_title iconID tz =>
      ret (Some (scannedFeed userID row category_title iconID tz), None)
  end.

(** The parameters $1..$17 of the UPDATE of UpdateFeed. *)
Definition row_of_feed (feed : Feed) (category : Category) : Row.t :=
  {| Row.id := Feed.ID feed;
     Row.user_id := Feed.UserID feed;
     Row.feed_url := Feed.FeedURL feed;
     Row.site_url := Feed.SiteURL feed;
     Row.title := Feed.Title feed;
     Row.category_id := Category.ID category;
     Row.etag_header := Feed.EtagHeader feed;
     Row.last_modified_header := Feed.LastModifiedHeader feed;
     Row.checked_at := Feed.CheckedAt feed;
     Row.parsing_error_msg := Feed.ParsingErrorMsg feed;
     Row.parsing_error_count := Feed.ParsingErrorCount feed;
     Row.scraper_rules := Feed.ScraperRules feed;
     Row.rewrite_rules := Feed.RewriteRules feed;
     Row.cookies := hstore_of_cookies (Feed.Cookies feed);
     Row.crawler := Feed.Crawler feed;
     Row.username := Feed.Username feed;
     Row.password := Feed.Password feed |}.

(** UpdateFeed: one UPDATE of the row with the feed's id and user_id. *)
Definition UpdateFeed (feed : Feed) : M E (option error) :=
  match Feed.Category feed with
  | None => panic
  | Some category =>
      err <- call (EvUpdateFeed (row_of_feed feed category))
                  (db_update_feed E (row_of_feed feed category)) ;;
      match err with
      | Some err => ret (Some (Errorf "Unable to update feed: %v" [ArgError err]))
      | None => ret None
      end
  end.

(** The loop of CreateFeed over feed.Entries: the entries as it leaves
    them, and the error it stops on. *)
Fixpoint createEntries (feedID userID : Z) (entries : list Entry)
  : M E (list Entry * option error) :=
  match entries with
  | [] => ret ([], None)
  | entry :: rest =>
      let entry := Entry.withUserID userID (Entry.withFeedID feedID entry) in
      err <- call (EvCreateEntry entry) (store_createEntry E entry) ;;
      match err with
      | Some err => ret (entry :: rest, Some err)
      | None =>
          r <- createEntries feedID userID rest ;;
          ret (entry :: fst r, snd r)
      end
  end.

(** CreateFeed returns the feed as the call leaves it, and its error. *)
Definition CreateFeed (feed : Feed) : M E (Feed * option error) :=
  match Feed.Category feed with
  | None => panic
  | Some category =>
      let row :=
        {| new_feed_url := Feed.FeedURL feed;
           new_site_url := Feed.SiteURL feed;
           new_title := Feed.Title feed;
           new_category_id := Category.ID category;
           new_user_id := Feed.UserID feed;
           new_etag_header := Feed.EtagHeader feed;
           new_last_modified_header := Feed.LastModifiedHeader feed;
           new_crawler := Feed.Crawler feed;
           new_username := Feed.Username feed;
           new_password := Feed.Password feed |} in
      r <- call (EvInsertFeed row) (db_insert_feed E row) ;;
      match r with
      | Err err => ret (feed, Some (Errorf "unable to create feed: %v" [ArgError err]))
      | Ok id =>
          let feed := Feed.withID id feed in
          r <- createEntries (Feed.ID feed) (Feed.UserID feed) (Feed.Entries feed) ;;
          ret (Feed.withEntries (fst r) feed, snd r)
      end
  end.

End Storage.
End Storage.

(** ** reader/scraper *)

Module Scraper.
Section Scraper.
Variable E : Env.

(** The loop of scrapContent: [contents += content] per matched node. *)
Definition scrapNode (contents : string) (s : Selection E) : string :=
  let content :=
    if Is E s "img" || Is E s "iframe"
    then fst (Html E (Parent E s))
    else fst (Html E s) in
  contents +:+ content.

Definition scrapContent (page rules : string) : result string :=
  match NewDocumentFromReader E page with
  | Err err => Err err
  | Ok document =>
      let contents := "" in
      Ok (fold_left scrapNode (Find E document rules) contents)
  end.

(** The range loop of getPredefinedScraperRules over the entries of the
    map, in the order [iteration] in which this range statement visits
    them. *)
Fixpoint rangeRules (iteration : list (string * string)) (urlDomain : string) : string :=
  match iteration with
  | [] => ""
  | (domain, rules) :: rest =>
      if strings_Contains urlDomain domain then rules else rangeRules rest urlDomain
  end.

Definition getPredefinedScraperRules (iteration : list (string * string))
    (websiteURL : string) : string :=
  let urlDomain := url_Domain E websiteURL in
  rangeRules iteration urlDomain.

(** An order in which a range statement may visit predefinedRules: every
    entry of the map once. *)
Definition iteration_of_predefinedRules (iteration : list (string * string)) : Prop :=
  Permutation iteration (map_to_list (predefinedRules E)).

Definition Fetch (websiteURL rules : string) (cookies : gmap string string)
  : M E (result string) :=
  let clt := Client.WithCookies cookies (Client.New websiteURL) in
  r <- call (EvGet clt) (client_Get E clt) ;;
  match r with
  | Err err => ret (Err err)
  | Ok response =>
      if HasServerFailure E response then
        ret (Err (Errorf "scraper: unable to download web page" []))
      else if negb (strings_Contains (Response.ContentType response) "text/html") then
        ret (Err (Errorf "scraper: this resource is not a HTML document (%s)"
                         [ArgString (Response.ContentType response)]))
      else
        match NormalizeBodyEncoding E response with
        | Err err => ret (Err err)
        | Ok page =>
            let websiteURL := Response.EffectiveURL response in
            rules <- (if String.eqb rules ""
                      then iteration <- call EvRangeRules (range_predefinedRules E) ;;
                           ret (getPredefinedScraperRules iteration websiteURL)
                      else ret rules) ;;
            if negb (String.eqb rules "")
            then ret (scrapContent page rules)
            else ret (ExtractContent E page)
        end
  end.

End Scraper.
End Scraper.

(** ** reader/processor *)

Module Processor.

Record FeedProcessor : Type := mkFeedProcessor {
  userID : Z;
  feed : Feed;
  scraperRules : string;
  rewriteRules : string;
  cookies : gmap string string;
  crawler : bool
}.

Definition WithCrawler (value : bool) (f : FeedProcessor) : FeedProcessor :=
  {| userID := userID f; feed := feed f; scraperRules := scraperRules f;
     rewriteRules := rewriteRules f; cookies := cookies f; crawler := value |}.

Definition WithScraperRules (rules : string) (f : FeedProcessor) : FeedProcessor :=
  {| userID := userID f; feed := feed f; scraperRules := rules;
     rewriteRules := rewriteRules f; cookies := cookies f; crawler := crawler f |}.

Definition WithRewriteRules (rules : string) (f : FeedProcessor) : FeedProcessor :=
  {| userID := userID f; feed := feed f; scraperRules := scraperRules f;
     rewriteRules := rules; cookies := cookies f; crawler := crawler f |}.

(** WithCookies copies the map entry by entry; maps are values here. *)
Definition WithCookies (ck : gmap string string) (f : FeedProcessor) : FeedProcessor :=
  {| userID := userID f; feed := feed f; scraperRules := scraperRules f;
     rewriteRules := rewriteRules f; cookies := ck; crawler := crawler f |}.

Definition NewFeedProcessor (uid : Z) (fd : Feed) : FeedProcessor :=
  {| userID := uid; feed := fd; scraperRules := ""; rewriteRules := ""; cookies := ∅;
     crawler := false |}.

Section Processor.
Variable E : Env.

(** The body of the loop of Process, for one entry.  The entries are
    pointers: the assignments to entry.Content change the entry of the
    feed. *)
Definition processEntry (f : FeedProcessor) (entry : Entry) : M E Entry :=
  entry <- (if crawler f then
              exist <- query (EvEntryURLExists (userID f) (Entry.URL entry))
                             (store_EntryURLExists E (userID f) (Entry.URL entry)) ;;
              if exist then ret entry
              else
                r <- Scraper.Fetch E (Entry.URL entry) (scraperRules f) (cookies f) ;;
                match r with
                | Err _ => ret entry
                | Ok content => ret (Entry.withContent content entry)
                end
            else ret entry) ;;
  content <- emit (EvRewriter (Entry.URL entry) (Entry.Content entry) (rewriteRules f))
                  (Rewriter E (Entry.URL entry) (Entry.Content entry) (rewriteRules f)) ;;
  let entry := Entry.withContent content entry in
  content <- emit (EvSanitize (Entry.URL entry) (Entry.Content entry))
                  (Sanitize E (Entry.URL entry) (Entry.Content entry)) ;;
  ret (Entry.withContent content entry).

Fixpoint processEntries (f : FeedProcessor) (entries : list Entry) : M E (list Entry) :=
  match entries with
  | [] => ret []
  | entry :: rest =>
      entry <- processEntry f entry ;;
      rest <- processEntries f rest ;;
      ret (entry :: rest)
  end.

(** Process returns the feed of the processor as the loop leaves it. *)
Definition Process (f : FeedProcessor) : M E Feed :=
  entries <- processEntries f (Feed.Entries (feed f)) ;;
  ret (Feed.withEntries entries (feed f)).

End Processor.
End Processor.

(** ** reader/feed: the handler *)

Module Handler.
Section Handler.
Variable E : Env.

(** CreateFeed returns (subscription, nil) as [Ok] and (nil, err) as
    [Err]. *)
Definition CreateFeed (userID categoryID : Z) (url : string) (crawler : bool)
    (username password : string) : M E (result Feed) :=
  exist <- call (EvCategoryExists userID categoryID)
                (store_CategoryExists E userID categoryID) ;;
  if negb exist then ret (Err (Localized (NewLocalizedError errCategoryNotFound [])))
  else
  let clt := Client.WithCredentials username password (Client.New url) in
  r <- call (EvGet clt) (client_Get E clt) ;;
  match r with
  | Err err =>
      match err with
      | Localized _ => ret (Err err)
      | _ => ret (Err (Localized (NewLocalizedError errRequestFailed [ArgError err])))
      end
  | Ok response =>
  if HasServerFailure E response then
    ret (Err (Localized (NewLocalizedError errServerFailure
                           [ArgInt (Response.StatusCode response)])))
  else if (Response.ContentLength response =? 0)%Z then
    ret (Err (Localized (NewLocalizedError errEmptyFeed [])))
  else
  exist <- Storage.FeedURLExists E userID (Response.EffectiveURL response) ;;
  if exist then
    ret (Err (Localized (NewLocalizedError errDuplicate
                           [ArgString (Response.EffectiveURL response)])))
  else
  match NormalizeBodyEncoding E response with
  | Err err => ret (Err (Localized (NewLocalizedError errEncoding [ArgError err])))
  | Ok body =>
  r <- emit (EvParseFeed body) (parseFeed E body) ;;
  match r with
  | inr feedErr => ret (Err (Localized feedErr))
  | inl subscription =>
  let feedProcessor := Processor.NewFeedProcessor userID subscription in
  let feedProcessor := Processor.WithCrawler crawler feedProcessor in
  subscription <- Processor.Process E feedProcessor ;;
  let subscription :=
    Feed.withCategory
      (Some {| Category.ID := categoryID; Category.Title := ""; Category.UserID := 0 |})
      subscription in
  let subscription := Feed.withEtagHeader (Response.ETag response) subscription in
  let subscription :=
    Feed.withLastModifiedHeader (Response.LastModified response) subscription in
  let subscription := Feed.withFeedURL (Response.EffectiveURL response) subscription in
  let subscription := Feed.withUserID userID subscription in
  let subscription := Feed.withCrawler crawler subscription in
  let subscription := Feed.withUsername username subscription in
  let subscription := Feed.withPassword password subscription in
  let subscription :=
    if String.eqb (Feed.SiteURL subscription) ""
    then Feed.withSiteURL (Feed.FeedURL subscription) subscription
    else subscription in
  r <- Storage.CreateFeed E subscription ;;
  let subscription := fst r in
  match snd r with
  | Some err => ret (Err err)
  | None =>
  r <- call (EvFindIcon (Feed.SiteURL subscription))
            (icon_FindIcon E (Feed.SiteURL subscription)) ;;
  match r with
  | Err _ => ret (Ok subscription)
  | Ok None => ret (Ok subscription)
  | Ok (Some icon) =>
      _ <- call (EvCreateFeedIcon subscription (Some icon))
                (store_CreateFeedIcon E subscription (Some icon)) ;;
      ret (Ok subscription)
  end
  end
  end
  end
  end.

(** The block of RefreshFeed under [if response.IsModified(...)].  It
    either returns from RefreshFeed ([inl], with the value returned) or
    falls through to the end of the function ([inr], with originalFeed as
    the block leaves it). *)
Definition refreshModified (userID : Z) (currentLanguage : Language E)
    (originalFeed : Feed) (response : Response) : M E (option error + Feed) :=
  if (Response.ContentLength response =? 0)%Z then
    let err := NewLocalizedError errEmptyFeed [] in
    let originalFeed :=
      Feed.withParsingErrorCount (int_incr (Feed.ParsingErrorCount originalFeed))
        originalFeed in
    let originalFeed :=
      Feed.withParsingErrorMsg (Localize E err currentLanguage) originalFeed in
    _ <- Storage.UpdateFeed E originalFeed ;;
    ret (inl (Some (Localized err)))
  else
  match NormalizeBodyEncoding E response with
  | Err err => ret (inl (Some (Localized (NewLocalizedError errEncoding [ArgError err]))))
  | Ok body =>
  (* [body, err := response.NormalizeBodyEncoding()]: err is nil from here on *)
  let err : option error := None in
  r <- emit (EvParseFeed body) (parseFeed E body) ;;
  match r with
  | inr parseErr =>
      let originalFeed :=
        Feed.withParsingErrorCount (int_incr (Feed.ParsingErrorCount originalFeed))
          originalFeed in
      let originalFeed :=
        Feed.withParsingErrorMsg (Localize E parseErr currentLanguage) originalFeed in
      _ <- Storage.UpdateFeed E originalFeed ;;
      ret (inl err)
  | inl subscription =>
  let feedProcessor := Processor.NewFeedProcessor userID subscription in
  let feedProcessor :=
    Processor.WithScraperRules (Feed.ScraperRules originalFeed) feedProcessor in
  let feedProcessor :=
    Processor.WithRewriteRules (Feed.RewriteRules originalFeed) feedProcessor in
  let feedProcessor := Processor.WithCookies (Feed.Cookies originalFeed) feedProcessor in
  let feedProcessor := Processor.WithCrawler (Feed.Crawler originalFeed) feedProcessor in
  subscription <- Processor.Process E feedProcessor ;;
  let originalFeed := Feed.withEtagHeader (Response.ETag response) originalFeed in
  let originalFeed :=
    Feed.withLastModifiedHeader (Response.LastModified response) originalFeed in
  err <- call (EvUpdateEntries (Feed.UserID originalFeed) (Feed.ID originalFeed)
                 (Feed.Entries subscription) (negb (Feed.Crawler originalFeed)))
              (store_UpdateEntries E (Feed.UserID originalFeed) (Feed.ID originalFeed)
                 (Feed.Entries subscription) (negb (Feed.Crawler originalFeed))) ;;
  match err with
  | Some err => ret (inl (Some err))
  | None =>
  hasIcon <- call (EvHasIcon (Feed.ID originalFeed))
                  (store_HasIcon E (Feed.ID originalFeed)) ;;
  if negb hasIcon then
    r <- call (EvFindIcon (Feed.SiteURL originalFeed))
              (icon_FindIcon E (Feed.SiteURL originalFeed)) ;;
    match r with
    | Err _ => ret (inr originalFeed)
    | Ok icon =>
        _ <- call (EvCreateFeedIcon originalFeed icon)
                  (store_CreateFeedIcon E originalFeed icon) ;;
        ret (inr originalFeed)
    end
  else ret (inr originalFeed)
  end
  end
  end.

Definition RefreshFeed (userID feedID : Z) : M E (option error) :=
  r <- call (EvUserLanguage userID) (store_UserLanguage E userID) ;;
  let userLanguage := match r with Ok language => language | Err _ => "en_US" end in
  let currentLanguage := GetLanguage E userLanguage in
  r <- Storage.FeedByID E userID feedID ;;
  match snd r with
  | Some err => ret (Some err)
  | None =>
  match fst r with
  | None => ret (Some (Localized (NewLocalizedError errNotFound [ArgInt feedID])))
  | Some originalFeed =>
  let clt := Client.New (Feed.FeedURL originalFeed) in
  let clt :=
    Client.WithCredentials (Feed.Username originalFeed) (Feed.Password originalFeed) clt in
  let clt :=
    Client.WithCacheHeaders (Feed.EtagHeader originalFeed)
      (Feed.LastModifiedHeader originalFeed) clt in
  r <- call (EvGet clt) (client_Get E clt) ;;
  match r with
  | Err err =>
      let customErr :=
        match err with
        | Localized lerr => lerr
        | _ => NewLocalizedError errRequestFailed [ArgError err]
        end in
      let originalFeed :=
        Feed.withParsingErrorCount (int_incr (Feed.ParsingErrorCount originalFeed))
          originalFeed in
      let originalFeed :=
        Feed.withParsingErrorMsg (Localize E customErr currentLanguage) originalFeed in
      _ <- Storage.UpdateFeed E originalFeed ;;
      ret (Some (Localized customErr))
  | Ok response =>
  now <- call EvNow (time_Now E) ;;
  let originalFeed := Feed.withCheckedAt now originalFeed in
  if IsNotFound E response then
    let err := NewLocalizedError errResourceNotFound [] in
    let originalFeed :=
      Feed.withParsingErrorCount (int_incr (Feed.ParsingErrorCount originalFeed))
        originalFeed in
    let originalFeed :=
      Feed.withParsingErrorMsg (Localize E err currentLanguage) originalFeed in
    _ <- Storage.UpdateFeed E originalFeed ;;
    ret (Some (Localized err))
  else if HasServerFailure E response then
    let err := NewLocalizedError errServerFailure [ArgInt (Response.StatusCode response)] in
    let originalFeed :=
      Feed.withParsingErrorCount (int_incr (Feed.ParsingErrorCount originalFeed))
        originalFeed in
    let originalFeed :=
      Feed.withParsingErrorMsg (Localize E err currentLanguage) originalFeed in
    _ <- Storage.UpdateFeed E originalFeed ;;
    ret (Some (Localized err))
  else
  r <- (if IsModified E response (Feed.EtagHeader originalFeed)
             (Feed.LastModifiedHeader originalFeed)
        then refreshModified userID currentLanguage originalFeed response
        else ret (inr originalFeed)) ;;
  match r with
  | inl returned => ret returned
  | inr originalFeed =>
  let originalFeed := Feed.withParsingErrorCount 0 originalFeed in
  let originalFeed := Feed.withParsingErrorMsg "" originalFeed in
  let originalFeed :=
    if String.eqb (Feed.SiteURL originalFeed) ""
    then Feed.withSiteURL (Feed.FeedURL originalFeed) originalFeed
    else originalFeed in
  Storage.UpdateFeed E originalFeed
  end
  end
  end
  end.

End Handler.
End Handler.

(** ** ui/form/feed.go *)

Module FeedForm.
Record t : Type := mk {
  FeedURL : string;
  SiteURL : string;
  Title : string;
  ScraperRules : string;
  RewriteRules : string;
  Cookies : gmap string string;
  Crawler : bool;
  CategoryID : Z;
  Username : string;
  Password : string
}.

Definition ValidateModification (f : t) : option error :=
  if String.eqb (FeedURL f) "" || String.eqb (SiteURL f) "" || String.eqb (Title f) ""
     || (CategoryID f =? 0)%Z
  then Some (Localized (NewLocalizedError "All fields are mandatory." []))
  else None.

(** Merge writes through feed.Category: a feed without a category makes
    the first assignment panic. *)
Definition Merge (f : t) (feed : Feed) : Outcome Feed :=
  match Feed.Category feed with
  | None => Panic
  | Some category =>
      let feed := Feed.withCategory (Some (Category.withID (CategoryID f) category)) feed in
      let feed := Feed.withTitle (Title f) feed in
      let feed := Feed.withSiteURL (SiteURL f) feed in
      let feed := Feed.withFeedURL (FeedURL f) feed in
      let feed := Feed.withScraperRules (ScraperRules f) feed in
      let feed := Feed.withRewriteRules (RewriteRules f) feed in
      let feed := Feed.withCookies (Cookies f) feed in
      let feed := Feed.withCrawler (Crawler f) feed in
      let feed := Feed.withParsingErrorCount 0 feed in
      let feed := Feed.withParsingErrorMsg "" feed in
      let feed := Feed.withUsername (Username f) feed in
      let feed := Feed.withPassword (Password f) feed in
      Done feed
  end.
End FeedForm.

(** ** Notions used in the statements *)

(** The client RefreshFeed builds for a feed: its URL, its credentials and
    its caching tokens. *)
Definition feedClient (f : Feed) : Client.t :=
  Client.WithCacheHeaders (Feed.EtagHeader f) (Feed.LastModifiedHeader f)
    (Client.WithCredentials (Feed.Username f) (Feed.Password f)
       (Client.New (Feed.FeedURL f))).

(** The language RefreshFeed localizes in. *)
Definition currentLanguage (E : Env) (r : result string) : Language E :=
  GetLanguage E (match r with Ok language => language | Err _ => "en_US" end).

(** The error RefreshFeed makes of a failed request. *)
Definition requestError (err : error) : LocalizedError :=
  match err with
  | Localized lerr => lerr
  | _ => NewLocalizedError errRequestFailed [ArgError err]
  end.

Definition notFoundError : LocalizedError := NewLocalizedError errResourceNotFound [].
Definition serverFailureError (response : Response) : LocalizedError :=
  NewLocalizedError errServerFailure [ArgInt (Response.StatusCode response)].
Definition emptyFeedError : LocalizedError := NewLocalizedError errEmptyFeed [].
Definition encodingError (err : error) : LocalizedError :=
  NewLocalizedError errEncoding [ArgError err].

(** A feed with a failure recorded on it: the counter one up, the message
    replaced. *)
Definition failedFeed (E : Env) (lang : Language E) (l : LocalizedError) (f : Feed) : Feed :=
  Feed.withParsingErrorMsg (Localize E l lang)
    (Feed.withParsingErrorCount (int_incr (Feed.ParsingErrorCount f)) f).

(** A feed as the end of RefreshFeed leaves it. *)
Definition healthyFeed (f : Feed) : Feed :=
  let f := Feed.withParsingErrorMsg "" (Feed.withParsingErrorCount 0 f) in
  if String.eqb (Feed.SiteURL f) "" then Feed.withSiteURL (Feed.FeedURL f) f else f.

(** What UpdateFeed returns for the error of the database, if any. *)
Definition updateFeedError (dberr : option error) : option error :=
  match dberr with
  | Some err => Some (Errorf "Unable to update feed: %v" [ArgError err])
  | None => None
  end.

(** A row with its two error columns, or its checked_at column, replaced. *)
Definition withErrorColumns (count : Z) (msg : string) (r : Row.t) : Row.t :=
  {| Row.id := Row.id r; Row.user_id := Row.user_id r; Row.feed_url := Row.feed_url r;
     Row.site_url := Row.site_url r; Row.title := Row.title r;
     Row.category_id := Row.category_id r; Row.etag_header := Row.etag_header r;
     Row.last_modified_header := Row.last_modified_header r;
     Row.checked_at := Row.checked_at r;
     Row.parsing_error_msg := msg; Row.parsing_error_count := count;
     Row.scraper_rules := Row.scraper_rules r; Row.rewrite_rules := Row.rewrite_rules r;
     Row.cookies := Row.cookies r; Row.crawler := Row.crawler r;
     Row.username := Row.username r; Row.password := Row.password r |}.

Definition withCheckedAtColumn (now : Time) (r : Row.t) : Row.t :=
  {| Row.id := Row.id r; Row.user_id := Row.user_id r; Row.feed_url := Row.feed_url r;
     Row.site_url := Row.site_url r; Row.title := Row.title r;
     Row.category_id := Row.category_id r; Row.etag_header := Row.etag_header r;
     Row.last_modified_header := Row.last_modified_header r;
     Row.checked_at := now;
     Row.parsing_error_msg := Row.parsing_error_msg r;
     Row.parsing_error_count := Row.parsing_error_count r;
     Row.scraper_rules := Row.scraper_rules r; Row.rewrite_rules := Row.rewrite_rules r;
     Row.cookies := Row.cookies r; Row.crawler := Row.crawler r;
     Row.username := Row.username r; Row.password := Row.password r |}.

(** RefreshFeed, started in the world [x0], finds the feed: UserLanguage
    answers, FeedByID scans a row, and [originalFeed], of category
    [category], is the record loaded, the world then being [x2]. *)
Definition loads (E : Env) (userID feedID : Z) (x0 : X E) (lang : Language E)
    (originalFeed : Feed) (category : Category) (x2 : X E) : Prop :=
  exists language x1 row category_title icon_id tz,
    store_UserLanguage E userID x0 = (language, x1) /\
    db_select_feed E userID feedID x1 = (Scanned row category_title icon_id tz, x2) /\
    lang = currentLanguage E language /\
    originalFeed = Storage.scannedFeed E userID row category_title icon_id tz /\
    Feed.Category originalFeed = Some category.

(** The fetch of RefreshFeed answers [response], which is neither a 404 nor
    a server failure, and the clock then reads [now]. *)
Definition fetches (E : Env) (originalFeed : Feed) (x2 : X E) (response : Response)
    (now : Time) (x4 : X E) : Prop :=
  exists x3,
    client_Get E (feedClient originalFeed) x2 = (Ok response, x3) /\
    time_Now E x3 = (now, x4) /\
    IsNotFound E response = false /\
    HasServerFailure E response = false.

(** The processor RefreshFeed sets up: the rules, cookies and crawler flag
    are the stored ones of the feed. *)
Definition refreshProcessor (userID : Z) (originalFeed subscription : Feed)
  : Processor.FeedProcessor :=
  Processor.WithCrawler (Feed.Crawler originalFeed)
    (Processor.WithCookies (Feed.Cookies originalFeed)
       (Processor.WithRewriteRules (Feed.RewriteRules originalFeed)
          (Processor.WithScraperRules (Feed.ScraperRules originalFeed)
             (Processor.NewFeedProcessor userID subscription)))).

(** A feed with the caching tokens of a response. *)
Definition withTokens (response : Response) (f : Feed) : Feed :=
  Feed.withLastModifiedHeader (Response.LastModified response)
    (Feed.withEtagHeader (Response.ETag response) f).

(** The calls of RefreshFeed about the icon of [f], after HasIcon. *)
Definition iconCalls (E : Env) (f : Feed) (calls : list (Event E)) : Prop :=
  calls = [] \/ calls = [EvFindIcon (Feed.SiteURL f)] \/
  exists icon, calls = [EvFindIcon (Feed.SiteURL f); EvCreateFeedIcon f icon].

(** A computation only adds to the trace. *)
Definition extends {E : Env} {A : Type} (m : M E A) : Prop :=
  forall w, exists more, trace (snd (m w)) = trace w ++ more.

(** The clients CreateFeed builds. *)
Definition newFeedClient (url username password : string) : Client.t :=
  Client.WithCredentials username password (Client.New url).

(** The fragment scrapContent takes from a matched node, in the words of
    the specification: its inner HTML, or its parent's for an image or an
    embedded frame. *)
Definition fragment (E : Env) (s : Selection E) : string :=
  if Is E s "img" || Is E s "iframe"
  then fst (Html E (Parent E s))
  else fst (Html E s).

(** The calls of a trace, by kind. *)
Section Calls.
Context {E : Env}.

Definition updateFeedCalls (t : list (Event E)) : list Row.t :=
  omap (fun ev => match ev with EvUpdateFeed row => Some row | _ => None end) t.

Definition insertFeedCalls (t : list (Event E)) : list NewFeedRow :=
  omap (fun ev => match ev with EvInsertFeed row => Some row | _ => None end) t.

Definition updateEntriesCalls (t : list (Event E)) : list (Z * Z * list Entry * bool) :=
  omap (fun ev => match ev with
                  | EvUpdateEntries u f entries b => Some (u, f, entries, b)
                  | _ => None
                  end) t.

Definition parseCalls (t : list (Event E)) : list string :=
  omap (fun ev => match ev with EvParseFeed body => Some body | _ => None end) t.

Definition fetchedURLs (t : list (Event E)) : list string :=
  omap (fun ev => match ev with EvGet c => Some (Client.url c) | _ => None end) t.

(** The calls that process entries or write them. *)
Definition isEntryCall (ev : Event E) : bool :=
  match ev with
  | EvEntryURLExists _ _ _ | EvRewriter _ _ _ | EvSanitize _ _
  | EvUpdateEntries _ _ _ _ | EvCreateEntry _ => true
  | _ => false
  end.

Definition isTransformCall (ev : Event E) : bool :=
  match ev with
  | EvRewriter _ _ _ | EvSanitize _ _ => true
  | _ => false
  end.

(** The calls Process may make. *)
Definition isProcessCall (ev : Event E) : bool :=
  match ev with
  | EvEntryURLExists _ _ _ | EvGet _ | EvRangeRules | EvRewriter _ _ _ | EvSanitize _ _ => true
  | _ => false
  end.

End Calls.

(** RefreshFeed, started in [x0] after the calls [t0], returns and has
    written the feed back once, as [failed]. *)
Definition recordsFailure (E : Env) (userID feedID : Z) (x0 : X E) (t0 : list (Event E))
    (failed : Feed) (category : Category) : Prop :=
  exists r x' calls,
    Handler.RefreshFeed E userID feedID (mkWorld x0 t0) = (Done r, mkWorld x' (t0 ++ calls))
    /\ updateFeedCalls calls = [Storage.row_of_feed failed category].

(** What the loop of Process does for one entry. *)
Section Processed.
Variable E : Env.
Variable f : Processor.FeedProcessor.

(** The client scraper.Fetch builds for an entry. *)
Definition entryClient (entry : Entry) : Client.t :=
  Client.WithCookies (Processor.cookies f) (Client.New (Entry.URL entry)).

(** [crawled entry content calls]: the crawl step of the loop makes the
    calls [calls] and leaves [content] in the entry.  Either the crawler is
    off, or the URL is known and nothing is fetched, or the URL is not
    known and its page is requested. *)
Inductive crawled (entry : Entry) : string -> list (Event E) -> Prop :=
| crawler_off :
    Processor.crawler f = false ->
    crawled entry (Entry.Content entry) []
| crawl_skipped :
    Processor.crawler f = true ->
    crawled entry (Entry.Content entry)
      [EvEntryURLExists (Processor.userID f) (Entry.URL entry) true]
| crawl_attempted content more :
    Processor.crawler f = true ->
    more = [] \/ more = [EvRangeRules] ->
    crawled entry content
      ([EvEntryURLExists (Processor.userID f) (Entry.URL entry) false;
        EvGet (entryClient entry)] ++ more).

(** [processed entry entry' calls]: the loop body turns [entry] into
    [entry'] and makes the calls [calls]: the crawl step, then Rewriter on
    the content it leaves, then Sanitize on the result, which becomes the
    content of the entry. *)
Inductive processed (entry : Entry) : Entry -> list (Event E) -> Prop :=
| processed_intro content calls :
    crawled entry content calls ->
    processed entry
      (Entry.withContent
         (Sanitize E (Entry.URL entry)
            (Rewriter E (Entry.URL entry) content (Processor.rewriteRules f))) entry)
      (calls ++
       [EvRewriter (Entry.URL entry) content (Processor.rewriteRules f);
        EvSanitize (Entry.URL entry)
          (Rewriter E (Entry.URL entry) content (Processor.rewriteRules f))]).

End Processed.

(** ** A small world to run the program in *)

(** An instance of [Env]: a feeds table that executes the two statements
    of FeedByID and UpdateFeed, a clock that ticks, a network that answers
    from a script, and a toy HTML tree in place of goquery. *)
Module Demo.

#[local] Set Warnings "-register-all".

Inductive node : Type :=
| Text (s : string)
| Element (tag : string) (children : list node).

Fixpoint render (n : node) : string :=
  match n with
  | Text s => s
  | Element tag [] => "<" +:+ tag +:+ "/>"
  | Element tag children =>
      "<" +:+ tag +:+ ">" +:+
      (fix all (l : list node) : string :=
         match l with
         | [] => ""
         | c :: r => render c +:+ all r
         end) children +:+
      "</" +:+ tag +:+ ">"
  end.

Definition inner (n : node) : string :=
  match n with
  | Text _ => ""
  | Element _ children => fold_right (fun c acc => render c +:+ acc) "" children
  end.

(** A selection of at most one node, which remembers the node's parent. *)
Record selection : Type := mkSelection { selected : option node; above : option node }.

(** The elements of tag [tag], in document order. *)
Fixpoint select (tag : string) (parent : option node) (n : node) : list selection :=
  match n with
  | Text _ => []
  | Element t children =>
      (if String.eqb t tag then [{| selected := Some n; above := parent |}] else []) ++
      (fix all (l : list node) : list selection :=
         match l with
         | [] => []
         | c :: r => select tag (Some n) c ++ all r
         end) children
  end.

Definition is_tag (s : selection) (tag : string) : bool :=
  match selected s with
  | Some (Element t _) => String.eqb t tag
  | _ => false
  end.

Definition html_of (s : selection) : string * option error :=
  (match selected s with Some n => inner n | None => "" end, None).

(** The host of a URL: what follows the scheme, up to the first slash. *)
Fixpoint upto_slash (s : string) : string :=
  match s with
  | EmptyString => ""
  | String c r => if Ascii.eqb c (Ascii.ascii_of_nat 47) then "" else String c (upto_slash r)
  end.

Definition after_scheme (s : string) : string :=
  if String.prefix "https://" s then String.substring 8 (String.length s - 8) s
  else if String.prefix "http://" s then String.substring 7 (String.length s - 7) s
  else s.

Definition domain (url : string) : string := upto_slash (after_scheme url).

Record State : Type := mkState {
  feeds : list Row.t;                    (* the table feeds *)
  clock : Time;
  iteration : list (string * string)     (* the next walk of predefinedRules *)
}.

(** What the outside answers. *)
Record Script : Type := mkScript {
  answers : Client.t -> result Response;
  decodes : Response -> result string;
  parses : string -> Feed + LocalizedError;
  reads : string -> result node;
  knows : string -> bool;
  table : gmap string string
}.

Definition same_feed (userID feedID : Z) (r : Row.t) : bool :=
  (Row.user_id r =? userID)%Z && (Row.id r =? feedID)%Z.

Definition select_feed (userID feedID : Z) (st : State) : FeedScan * State :=
  (match List.find (same_feed userID feedID) (feeds st) with
   | Some r => Scanned r "" None "UTC"
   | None => ErrNoRows
   end, st).

Definition update_feed (row : Row.t) (st : State) : option error * State :=
  (None,
   {| feeds := map (fun r => if same_feed (Row.user_id row) (Row.id row) r then row else r)
                   (feeds st);
      clock := clock st; iteration := iteration st |}).

Definition insert_feed (row : NewFeedRow) (st : State) : result Z * State :=
  let id := (1 + Z.of_nat (length (feeds st)))%Z in
  (Ok id,
   {| feeds := feeds st ++
               [{| Row.id := id; Row.user_id := new_user_id row;
                   Row.feed_url := new_feed_url row; Row.site_url := new_site_url row;
                   Row.title := new_title row; Row.category_id := new_category_id row;
                   Row.etag_header := new_etag_header row;
                   Row.last_modified_header := new_last_modified_header row;
                   Row.checked_at := 0; Row.parsing_error_msg := "";
                   Row.parsing_error_count := 0; Row.scraper_rules := "";
                   Row.rewrite_rules := ""; Row.cookies := ∅;
                   Row.crawler := new_crawler row; Row.username := new_username row;
                   Row.password := new_password row |}];
      clock := clock st; iteration := iteration st |}).

Definition count_feed_url (userID : Z) (feedURL : string) (st : State) : result Z * State :=
  (Ok (Z.of_nat
         (length (filter (fun r => (Row.user_id r =? userID)%Z
                                    && String.eqb (Row.feed_url r) feedURL) (feeds st)))),
   st).

Definition now (st : State) : Time * State :=
  (clock st, {| feeds := feeds st; clock := (clock st + 1)%Z; iteration := iteration st |}).

Definition modified (r : Response) (etag lastModified : string) : bool :=
  negb (Response.StatusCode r =? 304)%Z
  && negb (negb (String.eqb (Response.ETag r) "") && String.eqb (Response.ETag r) etag)
  && negb (negb (String.eqb (Response.LastModified r) "")
           && String.eqb (Response.LastModified r) lastModified).

Definition env (s : Script) : Env :=
  {| X := State;
     Icon := string;
     Language := string;
     Document := node;
     Selection := selection;
     client_Get := fun c st => (answers s c, st);
     HasServerFailure := fun r => (400 <=? Response.StatusCode r)%Z;
     IsNotFound := fun r => (Response.StatusCode r =? 404)%Z || (Response.StatusCode r =? 410)%Z;
     IsModified := modified;
     NormalizeBodyEncoding := decodes s;
     time_Now := now;
     timezone_Convert := fun _ t => t;
     GetLanguage := fun language => language;
     Localize := fun l _ => message_of l;
     parseFeed := parses s;
     Rewriter := fun _ content rules => content +:+ rules;
     Sanitize := fun _ content => "safe:" +:+ content;
     ExtractContent := fun page => Ok page;
     url_Domain := domain;
     icon_FindIcon := fun _ st => (Ok None, st);
     predefinedRules := table s;
     range_predefinedRules := fun st => (iteration st, st);
     NewDocumentFromReader := reads s;
     Find := fun document rules => select rules None document;
     Is := is_tag;
     Parent := fun sel => {| selected := above sel; above := None |};
     Html := html_of;
     store_UserLanguage := fun _ st => (Ok "en_US", st);
     store_CategoryExists := fun _ _ st => (true, st);
     store_EntryURLExists := fun _ url st => (knows s url, st);
     store_UpdateEntries := fun _ _ _ _ st => (None, st);
     store_HasIcon := fun _ st => (true, st);
     store_CreateFeedIcon := fun _ _ st => (None, st);
     store_createEntry := fun _ st => (None, st);
     db_count_feed_url := count_feed_url;
     db_select_feed := select_feed;
     db_insert_feed := insert_feed;
     db_update_feed := update_feed |}.

(** One stored feed, which has failed twice, and its table. *)
Definition stored : Row.t :=
  {| Row.id := 7; Row.user_id := 1; Row.feed_url := "https://example.org/feed.xml";
     Row.site_url := "https://example.org/"; Row.title := "Example";
     Row.category_id := 3; Row.etag_header := "v1"; Row.last_modified_header := "";
     Row.checked_at := 5; Row.parsing_error_msg := "Unable to execute request: %v";
     Row.parsing_error_count := 2; Row.scraper_rules := ""; Row.rewrite_rules := "";
     Row.cookies := ∅; Row.crawler := true; Row.username := ""; Row.password := "" |}.

Definition start : State := {| feeds := [stored]; clock := 100; iteration := [] |}.

Definition response (status length : Z) (etag body : string) : Response :=
  {| Response.StatusCode := status; Response.ContentLength := length;
     Response.ContentType := "text/xml"; Response.EffectiveURL := "https://example.org/feed.xml";
     Response.ETag := etag; Response.LastModified := ""; Response.Body := body |}.

(** A parser that knows one document. *)
Definition entryOf (url content : string) : Entry :=
  {| Entry.UserID := 0; Entry.FeedID := 0; Entry.URL := url; Entry.Content := content |}.

Definition parsed : Feed :=
  Feed.withEntries
    [entryOf "https://example.org/old" "summary of old";
     entryOf "https://example.org/new" "summary of new"]
    (Feed.withTitle "Example" zeroFeed).

Definition parser (body : string) : Feed + LocalizedError :=
  if String.eqb body "<rss>two entries</rss>" then inl parsed
  else inr (NewLocalizedError "Unsupported feed format" []).

Definition page : node :=
  Element "article"
    [Element "figure" [Element "img" []; Element "figcaption" [Text "A"]];
     Element "p" [Text "B"]].

(** The script: the network answers [r] to the feed's client and an HTML
    page to any other, the user has the entry .../old already. *)
Definition script (r : result Response) : Script :=
  {| answers := fun c =>
       if String.eqb (Client.url c) "https://example.org/feed.xml" then r
       else Ok {| Response.StatusCode := 200; Response.ContentLength := -1;
                  Response.ContentType := "text/html; charset=utf-8";
                  Response.EffectiveURL := Client.url c; Response.ETag := "";
                  Response.LastModified := ""; Response.Body := "page" |};
     decodes := fun r =>
       if String.eqb (Response.Body r) "latin-9?" then Err (Errorf "unknown charset" [])
       else Ok (Response.Body r);
     parses := parser;
     reads := fun _ => Ok page;
     knows := fun url => String.eqb url "https://example.org/old";
     table := {[ "example.org" := "p" ]} |}.

Definition withTable (rules : gmap string string) (s : Script) : Script :=
  {| answers := answers s; decodes := decodes s; parses := parses s; reads := reads s;
     knows := knows s; table := rules |}.

(** The stored feed as FeedByID loads it, and the world before and after
    the clock is read. *)
Definition category : Category :=
  {| Category.ID := 3; Category.Title := ""; Category.UserID := 1 |}.
(** The responses of the examples. *)
Definition notModified : Response := response 304 0 "v1" "".
Definition gone : Response := response 404 0 "" "".
Definition unavailable : Response := response 503 (-1) "" "".
Definition empty : Response := response 200 0 "v2" "".
Definition undecodable : Response := response 200 8 "v2" "latin-9?".
Definition unparsable : Response := response 200 10 "v2" "not a feed".
Definition fresh : Response := response 200 (-1) "v2" "<rss>two entries</rss>".

Definition ticked : State := snd (now start).

(** The world in which the network answers [r] to the feed's client, the
    feed it loads and the state it starts in. *)
Definition serving (r : Response) : Env := env (script (Ok r)).
Definition loaded (r : Response) : Feed :=
  Storage.scannedFeed (serving r) 1 stored "" None "UTC".
Definition begin (r : Response) : World (serving r) := mkWorld (start : X (serving r)) [].

(** The same world with a store that refuses to merge the entries. *)
Definition refusal : error := Errorf "store: unable to update entries" [].

Definition refusing (r : Response) : Env :=
  let E := serving r in
  {| X := X E;
     Icon := Icon E;
     Language := Language E;
     Document := Document E;
     Selection := Selection E;
     client_Get := client_Get E;
     HasServerFailure := HasServerFailure E;
     IsNotFound := IsNotFound E;
     IsModified := IsModified E;
     NormalizeBodyEncoding := NormalizeBodyEncoding E;
     time_Now := time_Now E;
     timezone_Convert := timezone_Convert E;
     GetLanguage := GetLanguage E;
     Localize := Localize E;
     parseFeed := parseFeed E;
     Rewriter := Rewriter E;
     Sanitize := Sanitize E;
     ExtractContent := ExtractContent E;
     url_Domain := url_Domain E;
     icon_FindIcon := icon_FindIcon E;
     predefinedRules := predefinedRules E;
     range_predefinedRules := range_predefinedRules E;
     NewDocumentFromReader := NewDocumentFromReader E;
     Find := Find E;
     Is := Is E;
     Parent := Parent E;
     Html := Html E;
     store_UserLanguage := store_UserLanguage E;
     store_CategoryExists := store_CategoryExists E;
     store_EntryURLExists := store_EntryURLExists E;
     store_UpdateEntries := fun _ _ _ _ st => (Some refusal, st);
     store_HasIcon := store_HasIcon E;
     store_CreateFeedIcon := store_CreateFeedIcon E;
     store_createEntry := store_createEntry E;
     db_count_feed_url := db_count_feed_url E;
     db_select_feed := db_select_feed E;
     db_insert_feed := db_insert_feed E;
     db_update_feed := db_update_feed E |}.

(** The same world with a store in which no feed has an icon. *)
Definition iconless (r : Response) : Env :=
  let E := serving r in
  {| X := X E;
     Icon := Icon E;
     Language := Language E;
     Document := Document E;
     Selection := Selection E;
     client_Get := client_Get E;
     HasServerFailure := HasServerFailure E;
     IsNotFound := IsNotFound E;
     IsModified := IsModified E;
     NormalizeBodyEncoding := NormalizeBodyEncoding E;
     time_Now := time_Now E;
     timezone_Convert := timezone_Convert E;
     GetLanguage := GetLanguage E;
     Localize := Localize E;
     parseFeed := parseFeed E;
     Rewriter := Rewriter E;
     Sanitize := Sanitize E;
     ExtractContent := ExtractContent E;
     url_Domain := url_Domain E;
     icon_FindIcon := icon_FindIcon E;
     predefinedRules := predefinedRules E;
     range_predefinedRules := range_predefinedRules E;
     NewDocumentFromReader := NewDocumentFromReader E;
     Find := Find E;
     Is := Is E;
     Parent := Parent E;
     Html := Html E;
     store_UserLanguage := store_UserLanguage E;
     store_CategoryExists := store_CategoryExists E;
     store_EntryURLExists := store_EntryURLExists E;
     store_UpdateEntries := store_UpdateEntries E;
     store_HasIcon := fun _ st => (false, st);
     store_CreateFeedIcon := store_CreateFeedIcon E;
     store_createEntry := store_createEntry E;
     db_count_feed_url := db_count_feed_url E;
     db_select_feed := db_select_feed E;
     db_insert_feed := db_insert_feed E;
     db_update_feed := db_update_feed E |}.

(** A table of two rules, and a form as the edit page posts it. *)
Definition overlapping : Env :=
  env (withTable {[ "github.com" := "article"; "medium.com" := "section" ]}
         (script (Ok fresh))).

Definition form : FeedForm.t :=
  {| FeedForm.FeedURL := "https://example.org/atom.xml";
     FeedForm.SiteURL := "https://example.org/"; FeedForm.Title := "Example (Atom)";
     FeedForm.ScraperRules := "article"; FeedForm.RewriteRules := "";
     FeedForm.Cookies := ∅; FeedForm.Crawler := false; FeedForm.CategoryID := 4;
     FeedForm.Username := ""; FeedForm.Password := "" |}.

End Demo.

(** ** The rest of storage/feed.go *)

(** The functions of storage/feed.go that the handler does not call.  Each
    sends one statement; they are modelled by state passing alone, the
    statement being a parameter that reads and changes the outside world. *)

(** What Feeds gets from the database: the query fails, or it yields rows,
    each with the outcome of its Scan. *)
Inductive RowScan : Type :=
| RowFailed (e : error)
| RowScanned (row : Row.t) (category_title : string) (icon_id : option Z) (tz : string).

Inductive FeedsQuery : Type :=
| QueryFailed (e : error)
| QueryRows (rows : list RowScan).

Module StorageMore.
Section StorageMore.
Variable E : Env.

(* database/sql: the statements of these functions *)
Variable db_count_feed_id : Z -> Z -> X E -> result Z * X E.
Variable db_count_feeds : Z -> X E -> result Z * X E.
Variable db_count_error_feeds : Z -> Z -> X E -> result Z * X E.
Variable db_select_feeds : Z -> X E -> FeedsQuery * X E.
Variable db_delete_feed : Z -> Z -> X E -> result (result Z) * X E.
Variable db_reset_feed_errors : X E -> option error * X E.

(* the constant maxParsingError of package storage *)
Variable maxParsingError : Z.

(** FeedExists: the Scan error is dropped and [result] stays 0. *)
Definition FeedExists (userID feedID : Z) (x : X E) : bool * X E :=
  let (r, x) := db_count_feed_id userID feedID x in
  let result := match r with Ok c => c | Err _ => 0 end in
  ((1 <=? result)%Z, x).

Definition CountFeeds (userID : Z) (x : X E) : Z * X E :=
  let (r, x) := db_count_feeds userID x in
  (match r with Ok result => result | Err _ => 0 end, x).

Definition CountErrorFeeds (userID : Z) (x : X E) : Z * X E :=
  let (r, x) := db_count_error_feeds userID maxParsingError x in
  (match r with Ok result => result | Err _ => 0 end, x).

(** The body of the loop of Feeds after a successful Scan.  [feed] is a
    fresh model.Feed whose Cookies map is nil: the first assignment
    [feed.Cookies[key] = value.String] panics. *)
Definition feedOfRow (userID : Z) (row : Row.t) (category_title : string)
    (iconID : option Z) (tz : string) : Outcome Feed :=
  if existsb (fun entry => Valid (snd entry)) (map_to_list (Row.cookies row)) then Panic
  else
    Done
      {| Feed.ID := Row.id row;
         Feed.UserID := Row.user_id row;
         Feed.FeedURL := Row.feed_url row;
         Feed.SiteURL := Row.site_url row;
         Feed.Title := Row.title row;
         Feed.CheckedAt := timezone_Convert E tz (Row.checked_at row);
         Feed.EtagHeader := Row.etag_header row;
         Feed.LastModifiedHeader := Row.last_modified_header row;
         Feed.ParsingErrorMsg := Row.parsing_error_msg row;
         Feed.ParsingErrorCount := Row.parsing_error_count row;
         Feed.ScraperRules := Row.scraper_rules row;
         Feed.RewriteRules := Row.rewrite_rules row;
         Feed.Cookies := ∅;
         Feed.Crawler := Row.crawler row;
         Feed.Username := Row.username row;
         Feed.Password := Row.password row;
         Feed.Category :=
           Some {| Category.ID := Row.category_id row; Category.Title := category_title;
                   Category.UserID := userID |};
         Feed.Icon :=
           match iconID with
           | Some i => Some {| FeedIcon.FeedID := Row.id row; FeedIcon.IconID := i |}
           | None => None
           end;
         Feed.Entries := [] |}.

(** The loop [for rows.Next()] of Feeds, [feeds] being the slice so far. *)
Fixpoint scanRows (userID : Z) (rows : list RowScan) (feeds : list Feed)
  : Outcome (option (list Feed) * option error) :=
  match rows with
  | [] => Done (Some feeds, None)
  | RowFailed err :: _ =>
      Done (None, Some (Errorf "unable to fetch feeds row: %v" [ArgError err]))
  | RowScanned row category_title iconID tz :: rest =>
      match feedOfRow userID row category_title iconID tz with
      | Panic => Panic
      | Done feed => scanRows userID rest (feeds ++ [feed])
      end
  end.

(** Feeds returns the pair (feeds, err) of the Go function. *)
Definition Feeds (userID : Z) (x : X E)
  : Outcome (option (list Feed) * option error) * X E :=
  let (q, x) := db_select_feeds userID x in
  match q with
  | QueryFailed err => (Done (None, Some (Errorf "Unable to fetch feeds: %v" [ArgError err])), x)
  | QueryRows rows => (scanRows userID rows [], x)
  end.

(** RemoveFeed: Exec, then RowsAffected on its result. *)
Definition RemoveFeed (userID feedID : Z) (x : X E) : option error * X E :=
  let (r, x) := db_delete_feed feedID userID x in
  (match r with
   | Err err => Some (Errorf "Unable to remove this feed: %v" [ArgError err])
   | Ok (Err err) => Some (Errorf "Unable to remove this feed: %v" [ArgError err])
   | Ok (Ok count) =>
       if (count =? 0)%Z then Some (Errorf "no feed has been removed" []) else None
   end, x).

Definition ResetFeedErrors (x : X E) : option error * X E := db_reset_feed_errors x.

End StorageMore.
End StorageMore.

(** ** ui/form/feed.go: reading the form *)

Module FormRequest.

(** The request, as r.FormValue reads it: the value of a field, empty when
    the field is absent. *)
Definition Request : Type := string -> string.

Definition CRLF : string :=
  String (Ascii.ascii_of_nat 13) (String (Ascii.ascii_of_nat 10) EmptyString).

Section FormRequest.
(* strconv.Atoi, and http.ReadRequest followed by req.Cookies(): the
   cookies, name and value, in the order of the header *)
Variable strconv_Atoi : string -> result Z.
Variable http_ReadRequest : string -> result (list (string * string)).

Definition parseCookies (rawCookies : string) : result (gmap string string) :=
  let rawRequest :=
    "GET / HTTP/1.0" +:+ CRLF +:+ "Cookie: " +:+ rawCookies +:+ CRLF +:+ CRLF in
  match http_ReadRequest rawRequest with
  | Err err => Err err
  | Ok reqCookies =>
      Ok (fold_left (fun cookies cookie => <[fst cookie := snd cookie]> cookies)
            reqCookies (∅ : gmap string string))
  end.

Definition NewFeedForm (r : Request) : FeedForm.t :=
  let categoryID := match strconv_Atoi (r "category_id") with Ok n => n | Err _ => 0 end in
  let cookies := match parseCookies (r "cookies") with Ok cookies => cookies | Err _ => ∅ end in
  {| FeedForm.FeedURL := r "feed_url";
     FeedForm.SiteURL := r "site_url";
     FeedForm.Title := r "title";
     FeedForm.ScraperRules := r "scraper_rules";
     FeedForm.RewriteRules := r "rewrite_rules";
     FeedForm.Cookies := cookies;
     FeedForm.Crawler := String.eqb (r "crawler") "1";
     FeedForm.CategoryID := categoryID;
     FeedForm.Username := r "feed_username";
     FeedForm.Password := r "feed_password" |}.

End FormRequest.
End FormRequest.

(** ** ui/feed_edit.go *)

Module Controller.
Section Controller.
Variable E : Env.

(* model.User with its ID, model.Categories *)
Variables (User Categories : Type).
Variable User_ID : User -> Z.

(* storage functions defined in other files, and the statement and the
   constant of CountErrorFeeds *)
Variable store_UserByID : Z -> X E -> (option User * option error) * X E.
Variable store_Categories : Z -> X E -> result Categories * X E.
Variable store_CountUnreadEntries : Z -> X E -> Z * X E.
Variable db_count_error_feeds : Z -> Z -> X E -> result Z * X E.
Variable maxParsingError : Z.

(** The values EditFeed sets on the view. *)
Record View : Type := mkView {
  view_form : FeedForm.t;
  view_categories : Categories;
  view_feed : Feed;
  view_menu : string;
  view_user : User;
  view_countUnread : Z;
  view_countErrorFeeds : Z
}.

(** What EditFeed writes to the response: html.ServerError, html.BadRequest,
    html.NotFound, or html.OK with a template rendered on a view. *)
Inductive Reply : Type :=
| ServerError (err : error)
| BadRequest (err : error)
| NotFound
| OK (template : string) (view : View).

(** EditFeed, for the user id of the request's context and the outcome of
    request.IntParam(r, "feedID").  The calls of FeedByID are not kept. *)
Definition EditFeed (ctxUserID : Z) (feedIDParam : result Z) (x : X E)
  : Outcome Reply * X E :=
  let (r, x) := store_UserByID ctxUserID x in
  match snd r with
  | Some err => (Done (ServerError err), x)
  | None =>
  match feedIDParam with
  | Err err => (Done (BadRequest err), x)
  | Ok feedID =>
  match fst r with
  | None => (Panic, x)
  | Some user =>
  let (o, w) := Storage.FeedByID E (User_ID user) feedID (mkWorld x []) in
  let x := ext w in
  match o with
  | Panic => (Panic, x)
  | Done (_, Some err) => (Done (ServerError err), x)
  | Done (None, None) => (Done NotFound, x)
  | Done (Some feed, None) =>
  let (r, x) := store_Categories (User_ID user) x in
  match r with
  | Err err => (Done (ServerError err), x)
  | Ok categories =>
  match Feed.Category feed with
  | None => (Panic, x)
  | Some category =>
  let feedForm :=
    {| FeedForm.SiteURL := Feed.SiteURL feed;
       FeedForm.FeedURL := Feed.FeedURL feed;
       FeedForm.Title := Feed.Title feed;
       FeedForm.ScraperRules := Feed.ScraperRules feed;
       FeedForm.RewriteRules := Feed.RewriteRules feed;
       FeedForm.Cookies := Feed.Cookies feed;
       FeedForm.Crawler := Feed.Crawler feed;
       FeedForm.CategoryID := Category.ID category;
       FeedForm.Username := Feed.Username feed;
       FeedForm.Password := Feed.Password feed |} in
  let (countUnread, x) := store_CountUnreadEntries (User_ID user) x in
  let (countErrorFeeds, x) :=
    StorageMore.CountErrorFeeds E db_count_error_feeds maxParsingError (User_ID user) x in
  (Done (OK "edit_feed"
           {| view_form := feedForm; view_categories := categories; view_feed := feed;
              view_menu := "feeds"; view_user := user; view_countUnread := countUnread;
              view_countErrorFeeds := countErrorFeeds |}), x)
  end
  end
  end
  end
  end
  end.

End Controller.
End Controller.

(** ** More notions used in the statements *)

(** A computation always returns: it never panics. *)
Definition safe {E : Env} {A : Type} (m : M E A) : Prop :=
  forall w, exists a w', m w = (Done a, w').

(** Entries as the loop of storage.CreateFeed leaves them. *)
Definition stamp (feedID userID : Z) (entry : Entry) : Entry :=
  Entry.withUserID userID (Entry.withFeedID feedID entry).

(** A string occurs in another. *)
Definition occurs_in (substr s : string) : Prop :=
  exists before after, s = before +:+ substr +:+ after.

(** The INSERT of storage.CreateFeed for a feed of category [category]. *)
Definition newRow (feed : Feed) (category : Category) : NewFeedRow :=
  {| new_feed_url := Feed.FeedURL feed;
     new_site_url := Feed.SiteURL feed;
     new_title := Feed.Title feed;
     new_category_id := Category.ID category;
     new_user_id := Feed.UserID feed;
     new_etag_header := Feed.EtagHeader feed;
     new_last_modified_header := Feed.LastModifiedHeader feed;
     new_crawler := Feed.Crawler feed;
     new_username := Feed.Username feed;
     new_password := Feed.Password feed |}.

(** The calls of a trace that create entries. *)
Definition createEntryCalls {E : Env} (t : list (Event E)) : list Entry :=
  omap (fun ev => match ev with EvCreateEntry entry => Some entry | _ => None end) t.

(** The entries of an hstore whose value is not NULL. *)
Definition validCookies (h : Hstore) : Hstore :=
  filter (fun entry => Valid (snd entry) = true) h.

(** A row with its cookies column replaced. *)
Definition withCookiesColumn (h : Hstore) (r : Row.t) : Row.t :=
  {| Row.id := Row.id r; Row.user_id := Row.user_id r; Row.feed_url := Row.feed_url r;
     Row.site_url := Row.site_url r; Row.title := Row.title r;
     Row.category_id := Row.category_id r; Row.etag_header := Row.etag_header r;
     Row.last_modified_header := Row.last_modified_header r;
     Row.checked_at := Row.checked_at r;
     Row.parsing_error_msg := Row.parsing_error_msg r;
     Row.parsing_error_count := Row.parsing_error_count r;
     Row.scraper_rules := Row.scraper_rules r; Row.rewrite_rules := Row.rewrite_rules r;
     Row.cookies := h; Row.crawler := Row.crawler r;
     Row.username := Row.username r; Row.password := Row.password r |}.

(** A scanned row that holds a cookie whose value is not NULL. *)
Definition has_cookie (scan : RowScan) : bool :=
  match scan with
  | RowScanned row _ _ _ =>
      existsb (fun entry => Valid (snd entry)) (map_to_list (Row.cookies row))
  | RowFailed _ => false
  end.

(** What scraper.Fetch extracts from a decoded page, for the rules given
    and a walk of the table. *)
Definition extraction (E : Env) (rules : string) (iteration : list (string * string))
    (response : Response) (page : string) : result string :=
  let rules :=
    if String.eqb rules ""
    then Scraper.getPredefinedScraperRules E iteration (Response.EffectiveURL response)
    else rules in
  if String.eqb rules "" then ExtractContent E page else Scraper.scrapContent E page rules.

(** The category CreateFeed gives a new subscription, and the subscription
    it stores, made of the parsed and processed feed, the arguments and
    the response. *)
Definition newCategory (categoryID : Z) : Category :=
  {| Category.ID := categoryID; Category.Title := ""; Category.UserID := 0 |}.

Definition newSubscription (userID categoryID : Z) (crawler : bool)
    (username password : string) (response : Response) (processed : Feed) : Feed :=
  let s :=
    Feed.withPassword password
      (Feed.withUsername username
         (Feed.withCrawler crawler
            (Feed.withUserID userID
               (Feed.withFeedURL (Response.EffectiveURL response)
                  (Feed.withLastModifiedHeader (Response.LastModified response)
                     (Feed.withEtagHeader (Response.ETag response)
                        (Feed.withCategory (Some (newCategory categoryID))
                           processed))))))) in
  if String.eqb (Feed.SiteURL s) "" then Feed.withSiteURL (Feed.FeedURL s) s else s.

(** The form the edit page shows for a feed of category [category]. *)
Definition formOf (feed : Feed) (category : Category) : FeedForm.t :=
  {| FeedForm.FeedURL := Feed.FeedURL feed;
     FeedForm.SiteURL := Feed.SiteURL feed;
     FeedForm.Title := Feed.Title feed;
     FeedForm.ScraperRules := Feed.ScraperRules feed;
     FeedForm.RewriteRules := Feed.RewriteRules feed;
     FeedForm.Cookies := Feed.Cookies feed;
     FeedForm.Crawler := Feed.Crawler feed;
     FeedForm.CategoryID := Category.ID category;
     FeedForm.Username := Feed.Username feed;
     FeedForm.Password := Feed.Password feed |}.

(** The two calls of the loop of Process that transform an entry whose
    content is [content], and the entry they leave. *)
Definition transformCalls (E : Env) (f : Processor.FeedProcessor) (entry : Entry)
    (content : string) : list (Event E) :=
  [EvRewriter (Entry.URL entry) content (Processor.rewriteRules f);
   EvSanitize (Entry.URL entry)
     (Rewriter E (Entry.URL entry) content (Processor.rewriteRules f))].

Definition transformed (E : Env) (f : Processor.FeedProcessor) (entry : Entry)
    (content : string) : Entry :=
  Entry.withContent
    (Sanitize E (Entry.URL entry)
       (Rewriter E (Entry.URL entry) content (Processor.rewriteRules f))) entry.

(** [handled E f entry x t entry' calls]: the loop of Process, reaching
    [entry] in the world [x] after the calls [t], makes the calls [calls]
    and leaves [entry'].  What it does is decided by the crawler flag, by
    the answer of EntryURLExists in [x] and by what scraper.Fetch returns
    in the world that follows:
    - crawler off: the entry's content is rewritten and sanitized, nothing
      else is called;
    - the store has the URL: EntryURLExists is the only other call, and
      the entry's own content is rewritten and sanitized;
    - the store does not have it: Fetch requests the entry's URL, and the
      content rewritten and sanitized is the one Fetch returns, or the
      entry's own when Fetch returns an error. *)
Definition handled (E : Env) (f : Processor.FeedProcessor) (entry : Entry)
    (x : X E) (t : list (Event E)) (entry' : Entry) (calls : list (Event E)) : Prop :=
  let userID := Processor.userID f in
  let url := Entry.URL entry in
  if Processor.crawler f then
    if fst (store_EntryURLExists E userID url x) then
      calls = [EvEntryURLExists userID url true] ++
              transformCalls E f entry (Entry.Content entry)
      /\ entry' = transformed E f entry (Entry.Content entry)
    else
      exists r x' more,
        Scraper.Fetch E url (Processor.scraperRules f) (Processor.cookies f)
          (mkWorld (snd (store_EntryURLExists E userID url x))
             (t ++ [EvEntryURLExists userID url false])) =
        (Done r,
         mkWorld x'
           (t ++ [EvEntryURLExists userID url false; EvGet (entryClient f entry)] ++ more))
        /\ (more = [] \/ more = [EvRangeRules])
        /\ calls =
           [EvEntryURLExists userID url false; EvGet (entryClient f entry)] ++ more ++
           transformCalls E f entry
             (match r with Ok content => content | Err _ => Entry.Content entry end)
        /\ entry' =
           transformed E f entry
             (match r with Ok content => content | Err _ => Entry.Content entry end)
  else
    calls = transformCalls E f entry (Entry.Content entry)
    /\ entry' = transformed E f entry (Entry.Content entry).

(** * Proofs *)

(** ** Go integers *)

Lemma int_incr_small (z : Z) : (int_min <= z < int_max)%Z -> int_incr z = (z + 1)%Z.
Proof.
  unfold int_incr, wrap_int, int_min, int_max. intros H.
  rewrite Z.mod_small by lia. lia.
Qed.

Lemma int_incr_max : int_incr int_max = int_min.
Proof. reflexivity. Qed.

(** ** Running the monad *)

Section Run.
Context {E : Env}.

Lemma bind_ret {A B : Type} (a : A) (k : A -> M E B) (w : World E) :
  bind (ret a) k w = k a w.
Proof. reflexivity. Qed.

Lemma bind_call {R B : Type} (ev : Event E) (f : X E -> R * X E) (k : R -> M E B)
    (x : X E) (t : list (Event E)) :
  bind (call ev f) k (mkWorld x t) = k (fst (f x)) (mkWorld (snd (f x)) (t ++ [ev])).
Proof. unfold bind, call. cbn. destruct (f x). reflexivity. Qed.

Lemma bind_query {R B : Type} (ev : R -> Event E) (f : X E -> R * X E) (k : R -> M E B)
    (x : X E) (t : list (Event E)) :
  bind (query ev f) k (mkWorld x t) =
  k (fst (f x)) (mkWorld (snd (f x)) (t ++ [ev (fst (f x))])).
Proof. unfold bind, query. cbn. destruct (f x). reflexivity. Qed.

Lemma bind_emit {R B : Type} (ev : Event E) (r : R) (k : R -> M E B)
    (x : X E) (t : list (Event E)) :
  bind (emit ev r) k (mkWorld x t) = k r (mkWorld x (t ++ [ev])).
Proof. reflexivity. Qed.

Lemma bind_bind {A B C : Type} (m : M E A) (k : A -> M E B) (h : B -> M E C)
    (w : World E) :
  bind (bind m k) h w = bind m (fun a => bind (k a) h) w.
Proof. unfold bind. destruct (m w) as [[a|] w']; reflexivity. Qed.

(** A computation that is known to end in [Done]. *)
Lemma bind_done {A B : Type} (m : M E A) (k : A -> M E B) (w w' : World E) (a : A) :
  m w = (Done a, w') -> bind m k w = k a w'.
Proof. intros H. unfold bind. rewrite H. reflexivity. Qed.

(** [extends] at the operations of the monad. *)
Lemma extends_ret {A : Type} (a : A) : extends (ret a : M E A).
Proof. intros w. exists []. cbn. now rewrite app_nil_r. Qed.

Lemma extends_panic {A : Type} : extends (panic : M E A).
Proof. intros w. exists []. cbn. now rewrite app_nil_r. Qed.

Lemma extends_call {R : Type} (ev : Event E) (f : X E -> R * X E) : extends (call ev f).
Proof. intros w. exists [ev]. unfold call. destruct (f (ext w)). reflexivity. Qed.

Lemma extends_query {R : Type} (ev : R -> Event E) (f : X E -> R * X E) :
  extends (query ev f).
Proof. intros w. unfold query. destruct (f (ext w)) as [r x]. now exists [ev r]. Qed.

Lemma extends_emit {R : Type} (ev : Event E) (r : R) : extends (emit ev r).
Proof. intros w. now exists [ev]. Qed.

Lemma extends_bind {A B : Type} (m : M E A) (k : A -> M E B) :
  extends m -> (forall a, extends (k a)) -> extends (bind m k).
Proof.
  intros Hm Hk w. unfold bind. destruct (Hm w) as [more Hmore].
  destruct (m w) as [[a|] w1]; cbn [snd] in *.
  - destruct (Hk a w1) as [more' Hmore']. exists (more ++ more').
    now rewrite Hmore', Hmore, app_assoc.
  - now exists more.
Qed.

End Run.

Ltac trace_norm := repeat rewrite <- app_assoc; cbn [app].

(** Proves [extends] of a term made of the operations of the monad,
    leaving the calls of other functions. *)
Ltac extends_step :=
  lazymatch goal with
  | |- extends (bind _ _) => apply extends_bind; [|intros ?]
  | |- extends (ret _) => apply extends_ret
  | |- extends panic => apply extends_panic
  | |- extends (call _ _) => apply extends_call
  | |- extends (query _ _) => apply extends_query
  | |- extends (emit _ _) => apply extends_emit
  | |- extends (match ?x with _ => _ end) => destruct x
  | |- extends (let _ := _ in _) => cbv zeta
  end.

(** ** storage/feed.go *)

Section StorageFacts.
Variable E : Env.

Lemma FeedByID_scanned (userID feedID : Z) (x : X E) (t : list (Event E))
    row category_title icon_id tz x' :
  db_select_feed E userID feedID x = (Scanned row category_title icon_id tz, x') ->
  Storage.FeedByID E userID feedID (mkWorld x t) =
  (Done (Some (Storage.scannedFeed E userID row category_title icon_id tz), None),
   mkWorld x' (t ++ [EvSelectFeed userID feedID])).
Proof.
  intros H. unfold Storage.FeedByID. rewrite bind_call, H. reflexivity.
Qed.

(** A feed that FeedByID returns has a category. *)
Lemma FeedByID_category (userID feedID : Z) (w w' : World E) (feed : Feed) err :
  Storage.FeedByID E userID feedID w = (Done (Some feed, err), w') ->
  exists category, Feed.Category feed = Some category.
Proof.
  unfold Storage.FeedByID, bind, call. destruct (db_select_feed E userID feedID (ext w)) as [r x].
  destruct r; cbn; intros H; inversion H; subst. eexists. reflexivity.
Qed.

Lemma UpdateFeed_done (f : Feed) (c : Category) (x : X E) (t : list (Event E)) :
  Feed.Category f = Some c ->
  Storage.UpdateFeed E f (mkWorld x t) =
  (Done (updateFeedError (fst (db_update_feed E (Storage.row_of_feed f c) x))),
   mkWorld (snd (db_update_feed E (Storage.row_of_feed f c) x))
           (t ++ [EvUpdateFeed (Storage.row_of_feed f c)])).
Proof.
  intros Hc. unfold Storage.UpdateFeed. rewrite Hc, bind_call.
  destruct (fst _); reflexivity.
Qed.

Lemma UpdateFeed_extends (f : Feed) : extends (Storage.UpdateFeed E f).
Proof. unfold Storage.UpdateFeed. repeat extends_step. Qed.

Lemma FeedURLExists_extends (userID : Z) (feedURL : string) :
  extends (Storage.FeedURLExists E userID feedURL).
Proof. unfold Storage.FeedURLExists. repeat extends_step. Qed.

Lemma createEntries_extends (feedID userID : Z) (entries : list Entry) :
  extends (Storage.createEntries E feedID userID entries).
Proof.
  induction entries as [|entry rest IH]; cbn [Storage.createEntries].
  - apply extends_ret.
  - repeat extends_step. exact IH.
Qed.

Lemma CreateFeed_extends (feed : Feed) : extends (Storage.CreateFeed E feed).
Proof.
  unfold Storage.CreateFeed. repeat extends_step. apply createEntries_extends.
Qed.

End StorageFacts.

(** ** The pipeline *)

Section Pipeline.
Variable E : Env.

(** scraper.Fetch requests the page and, without rules, walks the table. *)
Lemma Fetch_runs (websiteURL rules : string) (cookies : gmap string string)
    (x : X E) (t : list (Event E)) :
  exists r x' more,
    Scraper.Fetch E websiteURL rules cookies (mkWorld x t) =
    (Done r,
     mkWorld x' (t ++ [EvGet (Client.WithCookies cookies (Client.New websiteURL))] ++ more))
    /\ (more = [] \/ more = [EvRangeRules]).
Proof.
  unfold Scraper.Fetch. rewrite bind_call.
  destruct (fst (client_Get E _ x)) as [response|err].
  2:{ eexists _, _, []. split; [reflexivity | now left]. }
  destruct (HasServerFailure E response).
  { eexists _, _, []. split; [reflexivity | now left]. }
  destruct (negb (strings_Contains _ _)).
  { eexists _, _, []. split; [reflexivity | now left]. }
  destruct (NormalizeBodyEncoding E response) as [page|err].
  2:{ eexists _, _, []. split; [reflexivity | now left]. }
  destruct (String.eqb rules "") eqn:Hrules.
  - rewrite bind_bind, bind_call, bind_ret.
    match goal with |- context [if ?b then _ else _] => destruct b end;
      (eexists _, _, [EvRangeRules]; split; [unfold ret; trace_norm; reflexivity | now right]).
  - rewrite bind_ret, Hrules. cbn [negb].
    eexists _, _, []. split; [reflexivity | now left].
Qed.

Lemma processEntry_spec (f : Processor.FeedProcessor) (entry : Entry)
    (x : X E) (t : list (Event E)) :
  exists entry' calls x',
    Processor.processEntry E f entry (mkWorld x t) = (Done entry', mkWorld x' (t ++ calls))
    /\ processed E f entry entry' calls.
Proof.
  unfold Processor.processEntry.
  destruct (Processor.crawler f) eqn:Hcrawler.
  - rewrite bind_bind, bind_query.
    destruct (fst (store_EntryURLExists E _ _ x)) eqn:Hknown.
    + rewrite bind_ret, bind_emit, bind_emit.
      eexists _, _, _. split.
      * unfold ret. trace_norm. reflexivity.
      * apply (processed_intro E f entry _ [EvEntryURLExists _ _ true]).
        now apply crawl_skipped.
    + rewrite bind_bind.
      destruct (Fetch_runs (Entry.URL entry) (Processor.scraperRules f) (Processor.cookies f)
                  (snd (store_EntryURLExists E (Processor.userID f) (Entry.URL entry) x))
                  (t ++ [EvEntryURLExists (Processor.userID f) (Entry.URL entry) false]))
        as (r & x' & more & HFetch & Hmore).
      erewrite bind_done by exact HFetch.
      set (content := match r with Ok content => content | Err _ => Entry.Content entry end).
      exists (Entry.withContent
                (Sanitize E (Entry.URL entry)
                   (Rewriter E (Entry.URL entry) content (Processor.rewriteRules f))) entry),
        (([EvEntryURLExists (Processor.userID f) (Entry.URL entry) false;
           EvGet (entryClient f entry)] ++ more) ++
         [EvRewriter (Entry.URL entry) content (Processor.rewriteRules f);
          EvSanitize (Entry.URL entry)
            (Rewriter E (Entry.URL entry) content (Processor.rewriteRules f))]), x'.
      split.
      * subst content. destruct r as [content|err];
          rewrite bind_ret, bind_emit, bind_emit; unfold ret; trace_norm; reflexivity.
      * apply processed_intro. now apply crawl_attempted.
  - rewrite bind_ret, bind_emit, bind_emit.
    eexists _, _, _. split.
    + unfold ret. trace_norm. reflexivity.
    + apply (processed_intro E f entry _ []). now apply crawler_off.
Qed.

Lemma processEntries_spec (f : Processor.FeedProcessor) (entries : list Entry) :
  forall (x : X E) (t : list (Event E)),
  exists entries' segments x',
    Processor.processEntries E f entries (mkWorld x t) =
    (Done entries', mkWorld x' (t ++ concat segments))
    /\ Forall3 (processed E f) entries entries' segments.
Proof.
  induction entries as [|entry rest IH]; intros x t.
  - exists [], [], x. split; [|constructor].
    cbn. unfold ret. now rewrite app_nil_r.
  - destruct (processEntry_spec f entry x t) as (entry' & calls & x1 & Hentry & Hprocessed).
    destruct (IH x1 (t ++ calls)) as (rest' & segments & x2 & Hrest & Hall).
    exists (entry' :: rest'), (calls :: segments), x2. split.
    + cbn [Processor.processEntries].
      erewrite bind_done by exact Hentry.
      erewrite bind_done by exact Hrest.
      unfold ret. cbn [concat]. now rewrite app_assoc.
    + now constructor.
Qed.

Lemma Process_spec (f : Processor.FeedProcessor) (x : X E) (t : list (Event E)) :
  exists entries' segments x',
    Processor.Process E f (mkWorld x t) =
    (Done (Feed.withEntries entries' (Processor.feed f)), mkWorld x' (t ++ concat segments))
    /\ Forall3 (processed E f) (Feed.Entries (Processor.feed f)) entries' segments.
Proof.
  destruct (processEntries_spec f (Feed.Entries (Processor.feed f)) x t)
    as (entries' & segments & x' & Hrun & Hall).
  exists entries', segments, x'. split; [|exact Hall].
  unfold Processor.Process. erewrite bind_done by exact Hrun. reflexivity.
Qed.

(** The three ways through the body of the loop. *)
Lemma processEntry_off (f : Processor.FeedProcessor) (entry : Entry)
    (x : X E) (t : list (Event E)) :
  Processor.crawler f = false ->
  Processor.processEntry E f entry (mkWorld x t) =
  (Done (transformed E f entry (Entry.Content entry)),
   mkWorld x (t ++ transformCalls E f entry (Entry.Content entry))).
Proof.
  intros Hoff. unfold Processor.processEntry. rewrite Hoff, bind_ret, !bind_emit.
  unfold ret. trace_norm. reflexivity.
Qed.

Lemma processEntry_known (f : Processor.FeedProcessor) (entry : Entry)
    (x x1 : X E) (t : list (Event E)) :
  Processor.crawler f = true ->
  store_EntryURLExists E (Processor.userID f) (Entry.URL entry) x = (true, x1) ->
  Processor.processEntry E f entry (mkWorld x t) =
  (Done (transformed E f entry (Entry.Content entry)),
   mkWorld x1
     (t ++ [EvEntryURLExists (Processor.userID f) (Entry.URL entry) true] ++
      transformCalls E f entry (Entry.Content entry))).
Proof.
  intros Hon Hknown. unfold Processor.processEntry.
  rewrite Hon, bind_bind, bind_query, Hknown. cbn [fst snd].
  rewrite bind_ret, !bind_emit. unfold ret. trace_norm. reflexivity.
Qed.

Lemma processEntry_crawled (f : Processor.FeedProcessor) (entry : Entry)
    (x x1 x2 : X E) (t calls : list (Event E)) (r : result string) :
  Processor.crawler f = true ->
  store_EntryURLExists E (Processor.userID f) (Entry.URL entry) x = (false, x1) ->
  Scraper.Fetch E (Entry.URL entry) (Processor.scraperRules f) (Processor.cookies f)
    (mkWorld x1 (t ++ [EvEntryURLExists (Processor.userID f) (Entry.URL entry) false])) =
  (Done r,
   mkWorld x2
     (t ++ [EvEntryURLExists (Processor.userID f) (Entry.URL entry) false] ++ calls)) ->
  Processor.processEntry E f entry (mkWorld x t) =
  (Done (transformed E f entry
           (match r with Ok content => content | Err _ => Entry.Content entry end)),
   mkWorld x2
     (t ++ [EvEntryURLExists (Processor.userID f) (Entry.URL entry) false] ++ calls ++
      transformCalls E f entry
        (match r with Ok content => content | Err _ => Entry.Content entry end))).
Proof.
  intros Hon Hknown HFetch. unfold Processor.processEntry.
  rewrite Hon, bind_bind, bind_query, Hknown. cbn [fst snd].
  rewrite bind_bind. erewrite bind_done by exact HFetch.
  destruct r as [content|err]; rewrite bind_ret, !bind_emit; unfold ret;
    trace_norm; reflexivity.
Qed.

(** The body of the loop returns, and does what [handled] says. *)
Lemma processEntry_handled (f : Processor.FeedProcessor) (entry : Entry)
    (x : X E) (t : list (Event E)) :
  exists entry' calls x',
    Processor.processEntry E f entry (mkWorld x t) = (Done entry', mkWorld x' (t ++ calls))
    /\ handled E f entry x t entry' calls.
Proof.
  unfold handled. destruct (Processor.crawler f) eqn:Hcrawler.
  - destruct (store_EntryURLExists E (Processor.userID f) (Entry.URL entry) x)
      as [[|] x1] eqn:Hknown; cbn [fst snd].
    + eexists _, _, x1. split; [|split; reflexivity].
      exact (processEntry_known f entry x x1 t Hcrawler Hknown).
    + destruct (Fetch_runs (Entry.URL entry) (Processor.scraperRules f) (Processor.cookies f)
                  x1 (t ++ [EvEntryURLExists (Processor.userID f) (Entry.URL entry) false]))
        as (r & x2 & more & HFetch & Hmore).
      rewrite <- app_assoc in HFetch.
      eexists _, _, x2. split.
      * exact (processEntry_crawled f entry x x1 x2 t _ r Hcrawler Hknown HFetch).
      * exists r, x2, more. split; [exact HFetch|]. split; [exact Hmore|].
        split; reflexivity.
  - eexists _, _, x. split; [|split; reflexivity].
    exact (processEntry_off f entry x t Hcrawler).
Qed.

(** What [handled] says of an entry the store has, and of every entry. *)
Lemma handled_known (f : Processor.FeedProcessor) (entry entry' : Entry)
    (x : X E) (t calls : list (Event E)) :
  handled E f entry x t entry' calls ->
  Processor.crawler f = true ->
  fst (store_EntryURLExists E (Processor.userID f) (Entry.URL entry) x) = true ->
  fetchedURLs calls = [] /\ entry' = transformed E f entry (Entry.Content entry).
Proof.
  unfold handled. intros H Hon Hknown. rewrite Hon, Hknown in H.
  destruct H as [-> ->]. split; reflexivity.
Qed.

Lemma handled_transformed (f : Processor.FeedProcessor) (entry entry' : Entry)
    (x : X E) (t calls : list (Event E)) :
  handled E f entry x t entry' calls ->
  exists content before,
    calls = before ++ transformCalls E f entry content
    /\ filter (fun ev => isTransformCall ev = true) before = []
    /\ entry' = transformed E f entry content.
Proof.
  unfold handled. intros H.
  destruct (Processor.crawler f).
  - destruct (fst (store_EntryURLExists E _ _ x)).
    + destruct H as [-> ->]. eexists _, [_]. repeat split; reflexivity.
    + destruct H as (r & x' & more & _ & Hmore & -> & ->).
      eexists _, ([_; _] ++ more). split; [now rewrite <- app_assoc|].
      split; [|reflexivity]. destruct Hmore as [-> | ->]; reflexivity.
  - destruct H as [-> ->]. eexists _, []. repeat split; reflexivity.
Qed.

(** The loop, at any of its entries: the world in which it reaches the
    entry is the one in which it leaves the entries before. *)
Lemma processEntries_split (f : Processor.FeedProcessor) (before after : list Entry)
    (entry : Entry) :
  forall (x : X E) (t : list (Event E)),
  exists before' entry' after' xi ti calls rest x',
    Processor.processEntries E f before (mkWorld x t) = (Done before', mkWorld xi ti)
    /\ length before' = length before
    /\ Processor.processEntries E f (before ++ entry :: after) (mkWorld x t) =
       (Done (before' ++ entry' :: after'), mkWorld x' (ti ++ calls ++ rest))
    /\ handled E f entry xi ti entry' calls.
Proof.
  induction before as [|first before IH]; intros x t.
  - destruct (processEntry_handled f entry x t) as (entry' & calls & x1 & Hentry & Hhandled).
    destruct (processEntries_spec f after x1 (t ++ calls))
      as (after' & segments & x2 & Hafter & _).
    exists [], entry', after', x, t, calls, (concat segments), x2.
    split; [reflexivity|]. split; [reflexivity|]. split; [|exact Hhandled].
    cbn [app Processor.processEntries].
    erewrite bind_done by exact Hentry.
    erewrite bind_done by exact Hafter.
    unfold ret. now rewrite app_assoc.
  - destruct (processEntry_spec f first x t) as (first' & calls0 & x1 & Hfirst & _).
    destruct (IH x1 (t ++ calls0))
      as (before' & entry' & after' & xi & ti & calls & rest & x' & Hbefore & Hlen & Hall
          & Hhandled).
    exists (first' :: before'), entry', after', xi, ti, calls, rest, x'.
    split; [|split; [|split; [|exact Hhandled]]].
    + cbn [Processor.processEntries].
      erewrite bind_done by exact Hfirst.
      erewrite bind_done by exact Hbefore. reflexivity.
    + cbn [length]. now rewrite Hlen.
    + cbn [app Processor.processEntries].
      erewrite bind_done by exact Hfirst.
      erewrite bind_done by exact Hall. reflexivity.
Qed.

(** The calls of the pipeline are calls of the pipeline. *)
Lemma processed_calls (f : Processor.FeedProcessor) (entry entry' : Entry)
    (calls : list (Event E)) :
  processed E f entry entry' calls -> forallb isProcessCall calls = true.
Proof.
  intros [content pre Hcrawled]. rewrite forallb_app. cbn.
  rewrite andb_true_r.
  destruct Hcrawled as [_|_|c more _ [->| ->]]; reflexivity.
Qed.

Lemma segments_calls (f : Processor.FeedProcessor) (entries entries' : list Entry)
    (segments : list (list (Event E))) :
  Forall3 (processed E f) entries entries' segments ->
  forallb isProcessCall (concat segments) = true.
Proof.
  induction 1 as [|entry entry' calls ? ? ? Hp _ IH]; [reflexivity|].
  cbn [concat]. rewrite forallb_app, IH, (processed_calls _ _ _ _ Hp). reflexivity.
Qed.

Lemma Process_extends (f : Processor.FeedProcessor) : extends (Processor.Process E f).
Proof.
  intros [x t]. destruct (Process_spec f x t) as (entries' & segments & x' & Hrun & _).
  rewrite Hrun. now exists (concat segments).
Qed.

(** The pipeline makes no call of the other kinds. *)
Lemma process_calls_no_update (calls : list (Event E)) :
  forallb isProcessCall calls = true ->
  updateFeedCalls calls = [] /\ updateEntriesCalls calls = [] /\
  parseCalls calls = [] /\ insertFeedCalls calls = [].
Proof.
  induction calls as [|ev calls IH]; [now repeat split|].
  cbn [forallb]. intros H. apply andb_true_iff in H as [Hev Hcalls].
  destruct (IH Hcalls) as (H1 & H2 & H3 & H4).
  unfold updateFeedCalls, updateEntriesCalls, parseCalls, insertFeedCalls in *.
  cbn [omap list_omap]. rewrite H1, H2, H3, H4.
  destruct ev; try discriminate Hev; now repeat split.
Qed.

End Pipeline.

(** ** The paths of RefreshFeed *)

Section Refresh.
Variable E : Env.
Variables (userID feedID : Z) (x0 x2 : X E) (t0 : list (Event E)).
Variables (lang : Language E) (originalFeed : Feed) (category : Category).
Hypothesis Hloads : loads E userID feedID x0 lang originalFeed category x2.

Lemma loads_category : Feed.Category originalFeed = Some category.
Proof. now destruct Hloads as (_ & _ & _ & _ & _ & _ & _ & _ & _ & _ & Hc). Qed.

(** RefreshFeed up to the fetch. *)
Lemma refresh_loaded :
  Handler.RefreshFeed E userID feedID (mkWorld x0 t0) =
  (r <- call (EvGet (feedClient originalFeed)) (client_Get E (feedClient originalFeed)) ;;
   match r with
   | Err err =>
       _ <- Storage.UpdateFeed E (failedFeed E lang (requestError err) originalFeed) ;;
       ret (Some (Localized (requestError err)))
   | Ok response =>
       now <- call EvNow (time_Now E) ;;
       let originalFeed := Feed.withCheckedAt now originalFeed in
       if IsNotFound E response then
         _ <- Storage.UpdateFeed E (failedFeed E lang notFoundError originalFeed) ;;
         ret (Some (Localized notFoundError))
       else if HasServerFailure E response then
         _ <- Storage.UpdateFeed E
                (failedFeed E lang (serverFailureError response) originalFeed) ;;
         ret (Some (Localized (serverFailureError response)))
       else
         r <- (if IsModified E response (Feed.EtagHeader originalFeed)
                    (Feed.LastModifiedHeader originalFeed)
               then Handler.refreshModified E userID lang originalFeed response
               else ret (inr originalFeed)) ;;
         match r with
         | inl returned => ret returned
         | inr originalFeed => Storage.UpdateFeed E (healthyFeed originalFeed)
         end
   end)%go (mkWorld x2 (t0 ++ [EvUserLanguage userID; EvSelectFeed userID feedID])).
Proof.
  destruct Hloads as (language & x1 & row & ct & ic & tz & HL & HS & -> & -> & _).
  unfold Handler.RefreshFeed.
  rewrite bind_call, HL. cbn [fst snd].
  erewrite bind_done by (apply FeedByID_scanned; exact HS).
  cbn [fst snd]. trace_norm. reflexivity.
Qed.

(** The request fails. *)
Lemma refresh_request_failed (err : error) (x3 : X E) :
  client_Get E (feedClient originalFeed) x2 = (Err err, x3) ->
  exists x',
    Handler.RefreshFeed E userID feedID (mkWorld x0 t0) =
    (Done (Some (Localized (requestError err))),
     mkWorld x'
       (t0 ++ [EvUserLanguage userID; EvSelectFeed userID feedID;
               EvGet (feedClient originalFeed);
               EvUpdateFeed
                 (Storage.row_of_feed
                    (failedFeed E lang (requestError err) originalFeed) category)])).
Proof.
  intros HGet. pose proof loads_category as Hc.
  rewrite refresh_loaded, bind_call, HGet. cbn [fst snd].
  erewrite bind_done by (apply UpdateFeed_done; exact Hc).
  eexists. unfold ret. trace_norm. reflexivity.
Qed.

(** The request is answered with a 404. *)
Lemma refresh_not_found (response : Response) (x3 x4 : X E) (now : Time) :
  client_Get E (feedClient originalFeed) x2 = (Ok response, x3) ->
  time_Now E x3 = (now, x4) ->
  IsNotFound E response = true ->
  exists x',
    Handler.RefreshFeed E userID feedID (mkWorld x0 t0) =
    (Done (Some (Localized notFoundError)),
     mkWorld x'
       (t0 ++ [EvUserLanguage userID; EvSelectFeed userID feedID;
               EvGet (feedClient originalFeed); EvNow;
               EvUpdateFeed
                 (Storage.row_of_feed
                    (failedFeed E lang notFoundError
                       (Feed.withCheckedAt now originalFeed)) category)])).
Proof.
  intros HGet HNow H404. pose proof loads_category as Hc.
  rewrite refresh_loaded, bind_call, HGet. cbn [fst snd].
  rewrite bind_call, HNow. cbn [fst snd]. rewrite H404.
  erewrite bind_done by (apply UpdateFeed_done; exact Hc).
  eexists. unfold ret. trace_norm. reflexivity.
Qed.

(** The request is answered with a server failure. *)
Lemma refresh_server_failure (response : Response) (x3 x4 : X E) (now : Time) :
  client_Get E (feedClient originalFeed) x2 = (Ok response, x3) ->
  time_Now E x3 = (now, x4) ->
  IsNotFound E response = false ->
  HasServerFailure E response = true ->
  exists x',
    Handler.RefreshFeed E userID feedID (mkWorld x0 t0) =
    (Done (Some (Localized (serverFailureError response))),
     mkWorld x'
       (t0 ++ [EvUserLanguage userID; EvSelectFeed userID feedID;
               EvGet (feedClient originalFeed); EvNow;
               EvUpdateFeed
                 (Storage.row_of_feed
                    (failedFeed E lang (serverFailureError response)
                       (Feed.withCheckedAt now originalFeed)) category)])).
Proof.
  intros HGet HNow H404 H5xx. pose proof loads_category as Hc.
  rewrite refresh_loaded, bind_call, HGet. cbn [fst snd].
  rewrite bind_call, HNow. cbn [fst snd]. rewrite H404, H5xx.
  erewrite bind_done by (apply UpdateFeed_done; exact Hc).
  eexists. unfold ret. trace_norm. reflexivity.
Qed.

Section Fetched.
Variables (response : Response) (now : Time) (x4 : X E).
Hypothesis Hfetches : fetches E originalFeed x2 response now x4.

(** RefreshFeed up to the test of IsModified. *)
Lemma refresh_fetched :
  Handler.RefreshFeed E userID feedID (mkWorld x0 t0) =
  (r <- (if IsModified E response (Feed.EtagHeader originalFeed)
              (Feed.LastModifiedHeader originalFeed)
         then Handler.refreshModified E userID lang
                (Feed.withCheckedAt now originalFeed) response
         else ret (inr (Feed.withCheckedAt now originalFeed))) ;;
   match r with
   | inl returned => ret returned
   | inr originalFeed => Storage.UpdateFeed E (healthyFeed originalFeed)
   end)%go
    (mkWorld x4
       (t0 ++ [EvUserLanguage userID; EvSelectFeed userID feedID;
               EvGet (feedClient originalFeed); EvNow])).
Proof.
  destruct Hfetches as (x3 & HGet & HNow & H404 & H5xx).
  rewrite refresh_loaded, bind_call, HGet. cbn [fst snd].
  rewrite bind_call, HNow. cbn [fst snd]. rewrite H404, H5xx.
  trace_norm. reflexivity.
Qed.

Lemma healthyFeed_category (f : Feed) : Feed.Category (healthyFeed f) = Feed.Category f.
Proof. unfold healthyFeed. now destruct (String.eqb _ _). Qed.

(** The response is not modified. *)
Lemma refresh_not_modified :
  IsModified E response (Feed.EtagHeader originalFeed)
    (Feed.LastModifiedHeader originalFeed) = false ->
  exists dberr x',
    Handler.RefreshFeed E userID feedID (mkWorld x0 t0) =
    (Done (updateFeedError dberr),
     mkWorld x'
       (t0 ++ [EvUserLanguage userID; EvSelectFeed userID feedID;
               EvGet (feedClient originalFeed); EvNow;
               EvUpdateFeed
                 (Storage.row_of_feed (healthyFeed (Feed.withCheckedAt now originalFeed))
                    category)])).
Proof.
  intros HMod. pose proof loads_category as Hc.
  rewrite refresh_fetched, HMod, bind_ret.
  erewrite UpdateFeed_done by (rewrite healthyFeed_category; exact Hc).
  eexists _, _. trace_norm. reflexivity.
Qed.

Hypothesis HModified :
  IsModified E response (Feed.EtagHeader originalFeed)
    (Feed.LastModifiedHeader originalFeed) = true.

(** The response is modified and declares an empty body. *)
Lemma refresh_empty :
  Response.ContentLength response = 0%Z ->
  exists x',
    Handler.RefreshFeed E userID feedID (mkWorld x0 t0) =
    (Done (Some (Localized emptyFeedError)),
     mkWorld x'
       (t0 ++ [EvUserLanguage userID; EvSelectFeed userID feedID;
               EvGet (feedClient originalFeed); EvNow;
               EvUpdateFeed
                 (Storage.row_of_feed
                    (failedFeed E lang emptyFeedError
                       (Feed.withCheckedAt now originalFeed)) category)])).
Proof.
  intros HLen. pose proof loads_category as Hc.
  rewrite refresh_fetched, HModified. unfold Handler.refreshModified.
  rewrite HLen. cbn [Z.eqb]. rewrite bind_bind.
  erewrite bind_done by (apply UpdateFeed_done; exact Hc).
  eexists. unfold ret. trace_norm. reflexivity.
Qed.

(** The body cannot be decoded. *)
Lemma refresh_encoding_failed (err : error) :
  Response.ContentLength response <> 0%Z ->
  NormalizeBodyEncoding E response = Err err ->
  Handler.RefreshFeed E userID feedID (mkWorld x0 t0) =
  (Done (Some (Localized (encodingError err))),
   mkWorld x4
     (t0 ++ [EvUserLanguage userID; EvSelectFeed userID feedID;
             EvGet (feedClient originalFeed); EvNow])).
Proof.
  intros HLen HNorm.
  rewrite refresh_fetched, HModified. unfold Handler.refreshModified.
  apply Z.eqb_neq in HLen. rewrite HLen, HNorm. reflexivity.
Qed.

(** The body cannot be parsed. *)
Lemma refresh_parse_failed (body : string) (parseErr : LocalizedError) :
  Response.ContentLength response <> 0%Z ->
  NormalizeBodyEncoding E response = Ok body ->
  parseFeed E body = inr parseErr ->
  exists x',
    Handler.RefreshFeed E userID feedID (mkWorld x0 t0) =
    (Done None,
     mkWorld x'
       (t0 ++ [EvUserLanguage userID; EvSelectFeed userID feedID;
               EvGet (feedClient originalFeed); EvNow; EvParseFeed body;
               EvUpdateFeed
                 (Storage.row_of_feed
                    (failedFeed E lang parseErr (Feed.withCheckedAt now originalFeed))
                    category)])).
Proof.
  intros HLen HNorm HParse. pose proof loads_category as Hc.
  rewrite refresh_fetched, HModified. unfold Handler.refreshModified.
  apply Z.eqb_neq in HLen. rewrite HLen, HNorm.
  rewrite bind_bind, bind_emit, HParse, bind_bind.
  erewrite bind_done by (apply UpdateFeed_done; exact Hc).
  eexists. unfold ret. trace_norm. reflexivity.
Qed.

(** The body is parsed: the pipeline runs, the entries are merged, the
    icon is looked after and the feed is written back. *)
Lemma refresh_parsed (body : string) (subscription : Feed) :
  Response.ContentLength response <> 0%Z ->
  NormalizeBodyEncoding E response = Ok body ->
  parseFeed E body = inl subscription ->
  exists entries' segments r x' after,
    Handler.RefreshFeed E userID feedID (mkWorld x0 t0) =
    (Done r,
     mkWorld x'
       (t0 ++ [EvUserLanguage userID; EvSelectFeed userID feedID;
               EvGet (feedClient originalFeed); EvNow; EvParseFeed body] ++
        concat segments ++
        [EvUpdateEntries (Feed.UserID originalFeed) (Feed.ID originalFeed) entries'
           (negb (Feed.Crawler originalFeed))] ++ after))
    /\ Forall3 (processed E (refreshProcessor userID originalFeed subscription))
         (Feed.Entries subscription) entries' segments
    /\ ((exists err, r = Some err /\ after = []) \/
        (exists dberr icons,
           r = updateFeedError dberr /\
           iconCalls E (withTokens response (Feed.withCheckedAt now originalFeed)) icons /\
           after =
             [EvHasIcon (Feed.ID originalFeed)] ++ icons ++
             [EvUpdateFeed
                (Storage.row_of_feed
                   (healthyFeed (withTokens response (Feed.withCheckedAt now originalFeed)))
                   category)])).
Proof.
  intros HLen HNorm HParse. pose proof loads_category as Hc.
  rewrite refresh_fetched, HModified.
  unfold Handler.refreshModified.
  apply Z.eqb_neq in HLen. rewrite HLen, HNorm.
  rewrite bind_bind, bind_emit, HParse, bind_bind.
  destruct (Process_spec E (refreshProcessor userID originalFeed subscription) x4
              (t0 ++ [EvUserLanguage userID; EvSelectFeed userID feedID;
                      EvGet (feedClient originalFeed); EvNow; EvParseFeed body]))
    as (entries' & segments & x5 & HProcess & Hall).
  trace_norm.
  erewrite bind_done by exact HProcess.
  exists entries', segments.
  rewrite bind_bind, bind_call. cbn [Feed.Entries Feed.withEntries].
  destruct (fst (store_UpdateEntries E _ _ _ _ x5)) as [err|].
  { eexists _, _, []. split; [|split; [exact Hall|left; eauto]].
    rewrite bind_ret. unfold ret. trace_norm. reflexivity. }
  rewrite bind_bind, bind_call.
  destruct (fst (store_HasIcon E _ _)).
  - cbn [negb]. rewrite bind_ret.
    erewrite UpdateFeed_done by (rewrite healthyFeed_category; exact Hc).
    eexists _, _, _. split; [|split; [exact Hall|right]].
    + trace_norm. reflexivity.
    + eexists _, []. split; [reflexivity|]. split; [now left|]. reflexivity.
  - cbn [negb]. rewrite bind_bind, bind_call.
    destruct (fst (icon_FindIcon E _ _)) as [icon|err].
    + rewrite bind_bind, bind_call, bind_ret.
      erewrite UpdateFeed_done by (rewrite healthyFeed_category; exact Hc).
      eexists _, _, _. split; [|split; [exact Hall|right]].
      * trace_norm. reflexivity.
      * eexists _, [_; _]. split; [reflexivity|]. split; [|reflexivity].
        right. right. eexists. reflexivity.
    + rewrite bind_ret.
      erewrite UpdateFeed_done by (rewrite healthyFeed_category; exact Hc).
      eexists _, _, _. split; [|split; [exact Hall|right]].
      * trace_norm. reflexivity.
      * eexists _, [_]. split; [reflexivity|]. split; [|reflexivity].
        right. left. reflexivity.
Qed.

(** The body is parsed, the pipeline runs, and the store refuses the
    entries. *)
Lemma refresh_merge_failed (body : string) (subscription : Feed) :
  Response.ContentLength response <> 0%Z ->
  NormalizeBodyEncoding E response = Ok body ->
  parseFeed E body = inl subscription ->
  exists entries' segments x5,
    Processor.Process E (refreshProcessor userID originalFeed subscription)
      (mkWorld x4
         (t0 ++ [EvUserLanguage userID; EvSelectFeed userID feedID;
                 EvGet (feedClient originalFeed); EvNow; EvParseFeed body])) =
    (Done (Feed.withEntries entries' subscription),
     mkWorld x5
       (t0 ++ [EvUserLanguage userID; EvSelectFeed userID feedID;
               EvGet (feedClient originalFeed); EvNow; EvParseFeed body] ++
        concat segments))
    /\ Forall3 (processed E (refreshProcessor userID originalFeed subscription))
         (Feed.Entries subscription) entries' segments
    /\ forall err x6,
         store_UpdateEntries E (Feed.UserID originalFeed) (Feed.ID originalFeed) entries'
           (negb (Feed.Crawler originalFeed)) x5 = (Some err, x6) ->
         Handler.RefreshFeed E userID feedID (mkWorld x0 t0) =
         (Done (Some err),
          mkWorld x6
            (t0 ++ [EvUserLanguage userID; EvSelectFeed userID feedID;
                    EvGet (feedClient originalFeed); EvNow; EvParseFeed body] ++
             concat segments ++
             [EvUpdateEntries (Feed.UserID originalFeed) (Feed.ID originalFeed) entries'
                (negb (Feed.Crawler originalFeed))])).
Proof.
  intros HLen HNorm HParse.
  destruct (Process_spec E (refreshProcessor userID originalFeed subscription) x4
              (t0 ++ [EvUserLanguage userID; EvSelectFeed userID feedID;
                      EvGet (feedClient originalFeed); EvNow; EvParseFeed body]))
    as (entries' & segments & x5 & HProcess & Hall).
  exists entries', segments, x5.
  split; [|split; [exact Hall|]].
  - rewrite HProcess. trace_norm. reflexivity.
  - intros err x6 Hrefused.
    rewrite refresh_fetched, HModified.
    unfold Handler.refreshModified.
    apply Z.eqb_neq in HLen. rewrite HLen, HNorm.
    rewrite bind_bind, bind_emit, HParse, bind_bind.
    trace_norm. rewrite <- app_assoc in HProcess. cbn [app] in HProcess.
    erewrite bind_done by exact HProcess.
    rewrite bind_bind, bind_call. cbn [Feed.Entries Feed.withEntries].
    cbn in Hrefused |- *. rewrite Hrefused. cbn [fst snd].
    rewrite bind_ret. unfold ret. trace_norm. reflexivity.
Qed.

End Fetched.
End Refresh.

(** ** The body-size check of CreateFeed *)

Section Create.
Variable E : Env.
Variables (userID categoryID : Z) (url : string) (crawler : bool) (username password : string).
Variables (x0 x1 x2 : X E) (t0 : list (Event E)) (response : Response).
Hypothesis HCategory : store_CategoryExists E userID categoryID x0 = (true, x1).
Hypothesis HGet :
  client_Get E (newFeedClient url username password) x1 = (Ok response, x2).
Hypothesis HStatus : HasServerFailure E response = false.

Lemma create_empty :
  Response.ContentLength response = 0%Z ->
  Handler.CreateFeed E userID categoryID url crawler username password (mkWorld x0 t0) =
  (Done (Err (Localized emptyFeedError)),
   mkWorld x2
     (t0 ++ [EvCategoryExists userID categoryID;
             EvGet (newFeedClient url username password)])).
Proof.
  intros HLen. unfold Handler.CreateFeed.
  rewrite bind_call, HCategory. cbn [fst snd negb].
  rewrite bind_call. fold (newFeedClient url username password). rewrite HGet.
  cbn [fst snd]. rewrite HStatus, HLen. cbn [Z.eqb].
  unfold ret. trace_norm. reflexivity.
Qed.

Lemma create_not_empty :
  Response.ContentLength response <> 0%Z ->
  exists r x' more,
    Handler.CreateFeed E userID categoryID url crawler username password (mkWorld x0 t0) =
    (r,
     mkWorld x'
       (t0 ++ [EvCategoryExists userID categoryID;
               EvGet (newFeedClient url username password);
               EvCountFeedURL userID (Response.EffectiveURL response)] ++ more)).
Proof.
  intros HLen. apply Z.eqb_neq in HLen. unfold Handler.CreateFeed.
  rewrite bind_call, HCategory. cbn [fst snd negb].
  rewrite bind_call. fold (newFeedClient url username password). rewrite HGet.
  cbn [fst snd]. rewrite HStatus, HLen.
  unfold Storage.FeedURLExists. rewrite bind_bind, bind_call, bind_ret.
  match goal with
  | |- exists r x' more, ?m ?w = _ =>
      assert (extends m) as Hext;
      [|destruct (Hext w) as [more Hmore]; destruct (m w) as [r [x' t']];
        cbn [snd trace] in Hmore; subst t'; exists r, x', more]
  end.
  { repeat extends_step;
      first [apply Process_extends | apply CreateFeed_extends | idtac]. }
  trace_norm. reflexivity.
Qed.

End Create.

(** ** The scraper *)

Lemma append_cons (ch : Ascii.ascii) (a b : string) :
  String ch a +:+ b = String ch (a +:+ b).
Proof. reflexivity. Qed.

Lemma append_assoc (a b c : string) : (a +:+ b) +:+ c = a +:+ (b +:+ c).
Proof.
  induction a as [|ch a IH]; [reflexivity|].
  now rewrite !append_cons, IH.
Qed.

Lemma append_empty_r (a : string) : a +:+ "" = a.
Proof.
  induction a as [|ch a IH]; [reflexivity|].
  now rewrite append_cons, IH.
Qed.

Section ScraperFacts.
Variable E : Env.

Lemma scrapNode_fragment (contents : string) (s : Selection E) :
  Scraper.scrapNode E contents s = contents +:+ fragment E s.
Proof. reflexivity. Qed.

Lemma scrap_loop (nodes : list (Selection E)) :
  forall contents,
    fold_left (Scraper.scrapNode E) nodes contents =
    contents +:+ fold_right String.append "" (map (fragment E) nodes).
Proof.
  induction nodes as [|s nodes IH]; intros contents; cbn [fold_left map fold_right].
  - now rewrite append_empty_r.
  - now rewrite IH, scrapNode_fragment, append_assoc.
Qed.

(** The loop of getPredefinedScraperRules stops at the first entry, in the
    order of the walk, whose key the host contains. *)
Lemma rangeRules_find (iteration : list (string * string)) (urlDomain : string) :
  Scraper.rangeRules iteration urlDomain =
  match List.find (fun entry => strings_Contains urlDomain (fst entry)) iteration with
  | Some entry => snd entry
  | None => ""
  end.
Proof.
  induction iteration as [|[domain rules] rest IH]; cbn; [reflexivity|].
  now destruct (strings_Contains urlDomain domain).
Qed.

End ScraperFacts.

(** ** The claims *)

(** The hypotheses [loads] and [fetches] in the small world. *)
Ltac demo_loads :=
  exists (Ok "en_US"), Demo.start, Demo.stored, "", None, "UTC"; repeat split; reflexivity.
Ltac demo_fetches := exists Demo.start; repeat split; reflexivity.

(** A run that ends with one UpdateFeed records it. *)
Lemma records_failure (E : Env) (userID feedID : Z) (x0 : X E) (t0 : list (Event E))
    (failed : Feed) (category : Category) (r : option error) (before : list (Event E)) :
  updateFeedCalls before = [] ->
  (exists x',
      Handler.RefreshFeed E userID feedID (mkWorld x0 t0) =
      (Done r,
       mkWorld x' (t0 ++ before ++ [EvUpdateFeed (Storage.row_of_feed failed category)]))) ->
  recordsFailure E userID feedID x0 t0 failed category.
Proof.
  intros Hbefore [x' Hrun]. exists r, x'. eexists. split; [exact Hrun|].
  unfold updateFeedCalls in *. now rewrite omap_app, Hbefore.
Qed.

(** C1 (the code departs from the claim).  When the body of a modified
    response cannot be parsed, RefreshFeed writes the failure onto the feed
    (counter one up, message of the parse error) and then returns nil, not
    an error: [return err] returns the error of NormalizeBodyEncoding, which
    is nil there, where the four other failure paths return the error they
    recorded. *)
Theorem C1_parse_failure_returns_nil (E : Env) (userID feedID : Z) (x0 x2 x4 : X E)
    (t0 : list (Event E)) (lang : Language E) (originalFeed : Feed) (category : Category)
    (response : Response) (now : Time) (body : string) (parseErr : LocalizedError) :
  loads E userID feedID x0 lang originalFeed category x2 ->
  fetches E originalFeed x2 response now x4 ->
  IsModified E response (Feed.EtagHeader originalFeed)
    (Feed.LastModifiedHeader originalFeed) = true ->
  Response.ContentLength response <> 0%Z ->
  NormalizeBodyEncoding E response = Ok body ->
  parseFeed E body = inr parseErr ->
  exists x',
    Handler.RefreshFeed E userID feedID (mkWorld x0 t0) =
    (Done None,
     mkWorld x'
       (t0 ++ [EvUserLanguage userID; EvSelectFeed userID feedID;
               EvGet (feedClient originalFeed); EvNow; EvParseFeed body;
               EvUpdateFeed
                 (withErrorColumns (int_incr (Feed.ParsingErrorCount originalFeed))
                    (Localize E parseErr lang)
                    (withCheckedAtColumn now
                       (Storage.row_of_feed originalFeed category)))])).
Proof.
  intros Hloads Hfetches Hmod Hlen Hnorm Hparse.
  exact (refresh_parse_failed E userID feedID x0 x2 t0 lang originalFeed category Hloads
           response now x4 Hfetches Hmod body parseErr Hlen Hnorm Hparse).
Qed.

Lemma C1_witness :
  exists x',
    Handler.RefreshFeed (Demo.serving Demo.unparsable) 1 7 (Demo.begin Demo.unparsable) =
    (Done None,
     mkWorld x'
       ([] ++ [EvUserLanguage 1; EvSelectFeed 1 7;
               EvGet (feedClient (Demo.loaded Demo.unparsable));
               EvNow; EvParseFeed "not a feed";
               EvUpdateFeed
                 (withErrorColumns
                    (int_incr
                       (Feed.ParsingErrorCount
                          (Demo.loaded Demo.unparsable)))
                    (Localize (Demo.serving Demo.unparsable)
                       (NewLocalizedError "Unsupported feed format" []) "en_US")
                    (withCheckedAtColumn 100
                       (Storage.row_of_feed
                          (Demo.loaded Demo.unparsable)
                          Demo.category)))])).
Proof.
  apply (C1_parse_failure_returns_nil (Demo.serving Demo.unparsable) 1 7
           Demo.start Demo.start Demo.ticked [] "en_US"
           (Demo.loaded Demo.unparsable) Demo.category
           Demo.unparsable 100%Z "not a feed"
           (NewLocalizedError "Unsupported feed format" [])).
  - demo_loads.
  - demo_fetches.
  - reflexivity.
  - discriminate.
  - reflexivity.
  - reflexivity.
Defined.

(** C2.  When the fetch succeeds and the response is not modified relative
    to the stored caching tokens, RefreshFeed makes five calls: it reads
    the language and the feed, fetches, reads the clock, and writes the
    feed back once.  It parses nothing, makes no call that processes or
    writes entries, and the row it writes has parsing_error_count 0, an
    empty parsing_error_msg and checked_at equal to the time just read. *)
Theorem C2_not_modified (E : Env) (userID feedID : Z) (x0 x2 x4 : X E)
    (t0 : list (Event E)) (lang : Language E) (originalFeed : Feed) (category : Category)
    (response : Response) (now : Time) :
  loads E userID feedID x0 lang originalFeed category x2 ->
  fetches E originalFeed x2 response now x4 ->
  IsModified E response (Feed.EtagHeader originalFeed)
    (Feed.LastModifiedHeader originalFeed) = false ->
  exists dberr x' row calls,
    Handler.RefreshFeed E userID feedID (mkWorld x0 t0) =
    (Done (updateFeedError dberr), mkWorld x' (t0 ++ calls))
    /\ calls = [EvUserLanguage userID; EvSelectFeed userID feedID;
                EvGet (feedClient originalFeed); EvNow; EvUpdateFeed row]
    /\ row = Storage.row_of_feed (healthyFeed (Feed.withCheckedAt now originalFeed)) category
    /\ Row.parsing_error_count row = 0%Z
    /\ Row.parsing_error_msg row = ""
    /\ Row.checked_at row = now
    /\ parseCalls calls = []
    /\ filter (fun ev => isEntryCall ev = true) calls = []
    /\ updateFeedCalls calls = [row].
Proof.
  intros Hloads Hfetches Hmod.
  destruct (refresh_not_modified E userID feedID x0 x2 t0 lang originalFeed category Hloads
              response now x4 Hfetches Hmod) as (dberr & x' & Hrun).
  exists dberr, x'. eexists _, _. split; [exact Hrun|].
  split; [reflexivity|]. split; [reflexivity|].
  unfold healthyFeed. destruct (String.eqb _ _); repeat split; reflexivity.
Qed.

Lemma C2_witness :
  exists dberr x' row calls,
    Handler.RefreshFeed (Demo.serving Demo.notModified) 1 7 (Demo.begin Demo.notModified) =
    (Done (updateFeedError dberr), mkWorld x' ([] ++ calls))
    /\ calls = [EvUserLanguage 1; EvSelectFeed 1 7;
                EvGet (feedClient (Demo.loaded Demo.notModified));
                EvNow; EvUpdateFeed row]
    /\ row = Storage.row_of_feed
               (healthyFeed
                  (Feed.withCheckedAt 100 (Demo.loaded Demo.notModified)))
               Demo.category
    /\ Row.parsing_error_count row = 0%Z
    /\ Row.parsing_error_msg row = ""
    /\ Row.checked_at row = 100%Z
    /\ parseCalls calls = []
    /\ filter (fun ev => isEntryCall ev = true) calls = []
    /\ updateFeedCalls calls = [row].
Proof.
  apply (C2_not_modified (Demo.serving Demo.notModified) 1 7
           Demo.start Demo.start Demo.ticked [] "en_US"
           (Demo.loaded Demo.notModified) Demo.category
           Demo.notModified 100%Z).
  - demo_loads.
  - demo_fetches.
  - reflexivity.
Defined.



(** C4.  When a modified response parses, RefreshFeed merges the entries
    into storage with exactly one call of UpdateEntries, for the feed's
    user and id, with the entries as the pipeline left them, and with the
    flag updateExistingEntries equal to the negation of the crawler flag
    stored with the feed: false, which tells storage not to touch the
    entries it has, whenever the crawler is on. *)
Theorem C4_merge_flag (E : Env) (userID feedID : Z) (x0 x2 x4 : X E)
    (t0 : list (Event E)) (lang : Language E) (originalFeed : Feed) (category : Category)
    (response : Response) (now : Time) (body : string) (subscription : Feed) :
  loads E userID feedID x0 lang originalFeed category x2 ->
  fetches E originalFeed x2 response now x4 ->
  IsModified E response (Feed.EtagHeader originalFeed)
    (Feed.LastModifiedHeader originalFeed) = true ->
  Response.ContentLength response <> 0%Z ->
  NormalizeBodyEncoding E response = Ok body ->
  parseFeed E body = inl subscription ->
  exists r x' calls entries' segments,
    Handler.RefreshFeed E userID feedID (mkWorld x0 t0) = (Done r, mkWorld x' (t0 ++ calls))
    /\ updateEntriesCalls calls =
       [(Feed.UserID originalFeed, Feed.ID originalFeed, entries',
         negb (Feed.Crawler originalFeed))]
    /\ Forall3 (processed E (refreshProcessor userID originalFeed subscription))
         (Feed.Entries subscription) entries' segments
    /\ (Feed.Crawler originalFeed = true ->
        updateEntriesCalls calls =
        [(Feed.UserID originalFeed, Feed.ID originalFeed, entries', false)]).
Proof.
  intros Hloads Hfetches Hmod Hlen Hnorm Hparse.
  destruct (refresh_parsed E userID feedID x0 x2 t0 lang originalFeed category Hloads
              response now x4 Hfetches Hmod body subscription Hlen Hnorm Hparse)
    as (entries' & segments & r & x' & after & Hrun & Hall & Hafter).
  exists r, x'. eexists _, entries', segments. split; [exact Hrun|].
  assert (updateEntriesCalls
            ([EvUserLanguage userID; EvSelectFeed userID feedID;
              EvGet (feedClient originalFeed); EvNow; EvParseFeed body] ++
             concat segments ++
             [EvUpdateEntries (Feed.UserID originalFeed) (Feed.ID originalFeed) entries'
                (negb (Feed.Crawler originalFeed))] ++ after) =
          [(Feed.UserID originalFeed, Feed.ID originalFeed, entries',
            negb (Feed.Crawler originalFeed))]) as Hcalls.
  { unfold updateEntriesCalls. rewrite !omap_app.
    destruct (process_calls_no_update E _ (segments_calls E _ _ _ _ Hall)) as (_ & Hs & _).
    unfold updateEntriesCalls in Hs. rewrite Hs.
    destruct Hafter as [(err & _ & ->)|(dberr & icons & _ & Hicons & ->)].
    - reflexivity.
    - rewrite !omap_app.
      destruct Hicons as [-> |[-> |[icon ->]]]; reflexivity. }
  split; [exact Hcalls|]. split; [exact Hall|].
  intros Hcrawler. rewrite Hcalls, Hcrawler. reflexivity.
Qed.

Lemma C4_witness :
  exists r x' calls entries' segments,
    Handler.RefreshFeed (Demo.serving Demo.fresh) 1 7 (Demo.begin Demo.fresh) =
    (Done r, mkWorld x' ([] ++ calls))
    /\ updateEntriesCalls calls =
       [(Feed.UserID (Demo.loaded Demo.fresh), Feed.ID (Demo.loaded Demo.fresh), entries',
         negb (Feed.Crawler (Demo.loaded Demo.fresh)))]
    /\ Forall3
         (processed (Demo.serving Demo.fresh)
            (refreshProcessor 1 (Demo.loaded Demo.fresh) Demo.parsed))
         (Feed.Entries Demo.parsed) entries' segments
    /\ (Feed.Crawler (Demo.loaded Demo.fresh) = true ->
        updateEntriesCalls calls =
        [(Feed.UserID (Demo.loaded Demo.fresh), Feed.ID (Demo.loaded Demo.fresh), entries',
          false)]).
Proof.
  apply (C4_merge_flag (Demo.serving Demo.fresh) 1 7 Demo.start Demo.start Demo.ticked []
           "en_US" (Demo.loaded Demo.fresh) Demo.category Demo.fresh 100
           "<rss>two entries</rss>" Demo.parsed).
  - demo_loads.
  - demo_fetches.
  - reflexivity.
  - discriminate.
  - reflexivity.
  - reflexivity.
Defined.




(** C6 as stated fails: the encoding failure is not the only failure of
    the refresh that leaves the row as it is.  In a world whose store
    refuses to merge the entries, the body is decoded and parsed,
    RefreshFeed returns the error of UpdateEntries, and the feed has not
    been written: the row counts two failures as before. *)
Lemma C6_counterexample :
  NormalizeBodyEncoding (Demo.refusing Demo.fresh) Demo.fresh = Ok "<rss>two entries</rss>" /\
  exists (x' : Demo.State) calls entries,
    Handler.RefreshFeed (Demo.refusing Demo.fresh) 1 7
      (@mkWorld (Demo.refusing Demo.fresh) Demo.start []) =
    (Done (Some Demo.refusal), @mkWorld (Demo.refusing Demo.fresh) x' calls)
    /\ updateEntriesCalls calls = [(1, 7, entries, false)]
    /\ updateFeedCalls calls = []
    /\ Demo.feeds x' = [Demo.stored]
    /\ Row.parsing_error_count Demo.stored = 2.
Proof.
  split; [reflexivity|].
  eexists _, _, _. split; [vm_compute; reflexivity|].
  split; [vm_compute; reflexivity|]. split; [reflexivity|]. split; reflexivity.
Qed.

(** C6 (amended).  When the body of a modified response cannot be decoded,
    RefreshFeed returns the encoding error after four calls, none of which
    writes the feed: the error columns are left as they are.  It is not
    alone in this: when the body is parsed and UpdateEntries fails on the
    entries the pipeline left, RefreshFeed returns that error and has not
    written the feed either.  The five other failures that
    follow the loading of the feed (request failed, 404, server failure,
    empty body, parse failure) write the feed back once, with the failure
    recorded on it. *)
Theorem C6_encoding_failure_not_recorded (E : Env) (userID feedID : Z) (x0 x2 : X E)
    (t0 : list (Event E)) (lang : Language E) (originalFeed : Feed) (category : Category) :
  loads E userID feedID x0 lang originalFeed category x2 ->
  (forall response now x4 err,
      fetches E originalFeed x2 response now x4 ->
      IsModified E response (Feed.EtagHeader originalFeed)
        (Feed.LastModifiedHeader originalFeed) = true ->
      Response.ContentLength response <> 0 ->
      NormalizeBodyEncoding E response = Err err ->
      exists calls,
        Handler.RefreshFeed E userID feedID (mkWorld x0 t0) =
        (Done (Some (Localized (encodingError err))), mkWorld x4 (t0 ++ calls))
        /\ calls = [EvUserLanguage userID; EvSelectFeed userID feedID;
                    EvGet (feedClient originalFeed); EvNow]
        /\ updateFeedCalls calls = [])
  /\ (forall response now x4 body subscription,
         fetches E originalFeed x2 response now x4 ->
         IsModified E response (Feed.EtagHeader originalFeed)
           (Feed.LastModifiedHeader originalFeed) = true ->
         Response.ContentLength response <> 0 ->
         NormalizeBodyEncoding E response = Ok body ->
         parseFeed E body = inl subscription ->
         exists entries' pipeline x5,
           Processor.Process E (refreshProcessor userID originalFeed subscription)
             (mkWorld x4
                (t0 ++ [EvUserLanguage userID; EvSelectFeed userID feedID;
                        EvGet (feedClient originalFeed); EvNow; EvParseFeed body])) =
           (Done (Feed.withEntries entries' subscription),
            mkWorld x5
              (t0 ++ [EvUserLanguage userID; EvSelectFeed userID feedID;
                      EvGet (feedClient originalFeed); EvNow; EvParseFeed body] ++
               pipeline))
           /\ forall err x6,
                store_UpdateEntries E (Feed.UserID originalFeed) (Feed.ID originalFeed)
                  entries' (negb (Feed.Crawler originalFeed)) x5 = (Some err, x6) ->
                exists calls,
                  Handler.RefreshFeed E userID feedID (mkWorld x0 t0) =
                  (Done (Some err), mkWorld x6 (t0 ++ calls))
                  /\ calls =
                     [EvUserLanguage userID; EvSelectFeed userID feedID;
                      EvGet (feedClient originalFeed); EvNow; EvParseFeed body] ++
                     pipeline ++
                     [EvUpdateEntries (Feed.UserID originalFeed) (Feed.ID originalFeed)
                        entries' (negb (Feed.Crawler originalFeed))]
                  /\ updateFeedCalls calls = [])
  /\ (forall err x3,
         client_Get E (feedClient originalFeed) x2 = (Err err, x3) ->
         recordsFailure E userID feedID x0 t0
           (failedFeed E lang (requestError err) originalFeed) category)
  /\ (forall response now x3 x4,
         client_Get E (feedClient originalFeed) x2 = (Ok response, x3) ->
         time_Now E x3 = (now, x4) ->
         IsNotFound E response = true ->
         recordsFailure E userID feedID x0 t0
           (failedFeed E lang notFoundError (Feed.withCheckedAt now originalFeed)) category)
  /\ (forall response now x3 x4,
         client_Get E (feedClient originalFeed) x2 = (Ok response, x3) ->
         time_Now E x3 = (now, x4) ->
         IsNotFound E response = false ->
         HasServerFailure E response = true ->
         recordsFailure E userID feedID x0 t0
           (failedFeed E lang (serverFailureError response)
              (Feed.withCheckedAt now originalFeed)) category)
  /\ (forall response now x4,
         fetches E originalFeed x2 response now x4 ->
         IsModified E response (Feed.EtagHeader originalFeed)
           (Feed.LastModifiedHeader originalFeed) = true ->
         Response.ContentLength response = 0 ->
         recordsFailure E userID feedID x0 t0
           (failedFeed E lang emptyFeedError (Feed.withCheckedAt now originalFeed)) category)
  /\ (forall response now x4 body parseErr,
         fetches E originalFeed x2 response now x4 ->
         IsModified E response (Feed.EtagHeader originalFeed)
           (Feed.LastModifiedHeader originalFeed) = true ->
         Response.ContentLength response <> 0 ->
         NormalizeBodyEncoding E response = Ok body ->
         parseFeed E body = inr parseErr ->
         recordsFailure E userID feedID x0 t0
           (failedFeed E lang parseErr (Feed.withCheckedAt now originalFeed)) category).
Proof.
  intros Hloads.
  split; [|split; [|split; [|split; [|split; [|split]]]]].
  - intros response now x4 err Hfetches Hmod Hlen Hnorm. eexists. split; [|split; reflexivity].
    exact (refresh_encoding_failed E userID feedID x0 x2 t0 lang originalFeed category Hloads
             response now x4 Hfetches Hmod err Hlen Hnorm).
  - intros response now x4 body subscription Hfetches Hmod Hlen Hnorm Hparse.
    destruct (refresh_merge_failed E userID feedID x0 x2 t0 lang originalFeed category Hloads
                response now x4 Hfetches Hmod body subscription Hlen Hnorm Hparse)
      as (entries' & segments & x5 & HProcess & Hall & Hfails).
    exists entries', (concat segments), x5. split; [exact HProcess|].
    intros err x6 Hrefused. eexists. split; [exact (Hfails err x6 Hrefused)|].
    split; [reflexivity|].
    destruct (process_calls_no_update E _ (segments_calls E _ _ _ _ Hall)) as (Hs & _).
    unfold updateFeedCalls in *. rewrite !omap_app, Hs. reflexivity.
  - intros err x3 HGet.
    eapply (records_failure E userID feedID x0 t0 _ category _
             [EvUserLanguage userID; EvSelectFeed userID feedID;
              EvGet (feedClient originalFeed)]); [reflexivity|].
    exact (refresh_request_failed E userID feedID x0 x2 t0 lang originalFeed category Hloads
             err x3 HGet).
  - intros response now x3 x4 HGet HNow H404.
    eapply (records_failure E userID feedID x0 t0 _ category _
             [EvUserLanguage userID; EvSelectFeed userID feedID;
              EvGet (feedClient originalFeed); EvNow]); [reflexivity|].
    exact (refresh_not_found E userID feedID x0 x2 t0 lang originalFeed category Hloads
             response x3 x4 now HGet HNow H404).
  - intros response now x3 x4 HGet HNow H404 H5xx.
    eapply (records_failure E userID feedID x0 t0 _ category _
             [EvUserLanguage userID; EvSelectFeed userID feedID;
              EvGet (feedClient originalFeed); EvNow]); [reflexivity|].
    exact (refresh_server_failure E userID feedID x0 x2 t0 lang originalFeed category Hloads
             response x3 x4 now HGet HNow H404 H5xx).
  - intros response now x4 Hfetches Hmod Hlen.
    eapply (records_failure E userID feedID x0 t0 _ category _
             [EvUserLanguage userID; EvSelectFeed userID feedID;
              EvGet (feedClient originalFeed); EvNow]); [reflexivity|].
    exact (refresh_empty E userID feedID x0 x2 t0 lang originalFeed category Hloads
             response now x4 Hfetches Hmod Hlen).
  - intros response now x4 body parseErr Hfetches Hmod Hlen Hnorm Hparse.
    eapply (records_failure E userID feedID x0 t0 _ category _
             [EvUserLanguage userID; EvSelectFeed userID feedID;
              EvGet (feedClient originalFeed); EvNow; EvParseFeed body]); [reflexivity|].
    exact (refresh_parse_failed E userID feedID x0 x2 t0 lang originalFeed category Hloads
             response now x4 Hfetches Hmod body parseErr Hlen Hnorm Hparse).
Qed.

Lemma C6_witness :
  (exists calls,
      Handler.RefreshFeed (Demo.serving Demo.undecodable) 1 7 (Demo.begin Demo.undecodable) =
      (Done (Some (Localized (encodingError (Errorf "unknown charset" [])))),
       @mkWorld (Demo.serving Demo.undecodable) Demo.ticked ([] ++ calls))
      /\ calls = [EvUserLanguage 1; EvSelectFeed 1 7;
                  EvGet (feedClient (Demo.loaded Demo.undecodable)); EvNow]
      /\ updateFeedCalls calls = [])
  /\ (exists (x6 : Demo.State) calls,
         Handler.RefreshFeed (Demo.refusing Demo.fresh) 1 7
           (@mkWorld (Demo.refusing Demo.fresh) Demo.start []) =
         (Done (Some Demo.refusal), @mkWorld (Demo.refusing Demo.fresh) x6 ([] ++ calls))
         /\ updateFeedCalls calls = []).
Proof.
  split.
  - apply (proj1 (C6_encoding_failure_not_recorded (Demo.serving Demo.undecodable) 1 7
                    Demo.start Demo.start [] "en_US" (Demo.loaded Demo.undecodable)
                    Demo.category ltac:(demo_loads))
             Demo.undecodable 100 Demo.ticked (Errorf "unknown charset" [])).
    + demo_fetches.
    + reflexivity.
    + discriminate.
    + reflexivity.
  - destruct (proj1 (proj2 (C6_encoding_failure_not_recorded (Demo.refusing Demo.fresh) 1 7
                              Demo.start Demo.start [] "en_US" (Demo.loaded Demo.fresh)
                              Demo.category ltac:(demo_loads)))
                Demo.fresh 100 Demo.ticked "<rss>two entries</rss>" Demo.parsed
                ltac:(demo_fetches) eq_refl ltac:(discriminate) eq_refl eq_refl)
      as (entries' & pipeline & x5 & _ & Hfails).
    destruct (Hfails Demo.refusal x5 eq_refl) as (calls & Hrun & _ & Hnone).
    exists x5, calls. split; [exact Hrun | exact Hnone].
Defined.

(** C7.  For a document that parses and the nodes that the rule matches,
    in the order in which Each visits them, scrapContent returns the
    concatenation, in that order and with nothing in between, of the
    fragments of the nodes: the inner HTML of the node, or of its parent
    when the node is an img or an iframe. *)
Theorem C7_scrapContent_concatenates (E : Env) (page rules : string) (document : Document E) :
  NewDocumentFromReader E page = Ok document ->
  Scraper.scrapContent E page rules =
  Ok (fold_right String.append "" (map (fragment E) (Find E document rules))).
Proof.
  intros Hdoc. unfold Scraper.scrapContent. rewrite Hdoc.
  now rewrite scrap_loop.
Qed.

Lemma C7_witness :
  Scraper.scrapContent (Demo.serving Demo.fresh) "page" "img" =
  Ok (fold_right String.append ""
        (map (fragment (Demo.serving Demo.fresh))
           (Find (Demo.serving Demo.fresh) Demo.page "img"))).
Proof.
  apply (C7_scrapContent_concatenates (Demo.serving Demo.fresh)
           "page" "img" Demo.page).
  reflexivity.
Defined.

(** C8 as stated fails: with two keys of the table in the host, the rule
    returned depends on the order in which the map is walked. *)
Lemma C8_counterexample :
  Scraper.iteration_of_predefinedRules Demo.overlapping
    [("github.com", "article"); ("medium.com", "section")] /\
  Scraper.iteration_of_predefinedRules Demo.overlapping
    [("medium.com", "section"); ("github.com", "article")] /\
  Scraper.getPredefinedScraperRules Demo.overlapping
    [("github.com", "article"); ("medium.com", "section")]
    "https://github.com.medium.com/post" = "article" /\
  Scraper.getPredefinedScraperRules Demo.overlapping
    [("medium.com", "section"); ("github.com", "article")]
    "https://github.com.medium.com/post" = "section".
Proof.
  assert (map_to_list (predefinedRules Demo.overlapping) =
          [("github.com", "article"); ("medium.com", "section")]) as Htable
    by (vm_compute; reflexivity).
  unfold Scraper.iteration_of_predefinedRules. rewrite Htable.
  split; [reflexivity|]. split; [apply perm_swap|].
  split; vm_compute; reflexivity.
Qed.

(** C8 (amended).  For every walk of the table, whatever the table holds,
    the rule returned is that of the first entry, in the order of the walk,
    whose key is a substring of the host, and the empty string when there
    is none.  Two walks of the table return the same rule when all the
    entries of the table whose key is a substring of the host carry the
    same rule. *)
Theorem C8_lookup (E : Env) (websiteURL : string) :
  (forall iteration : list (string * string),
      Scraper.getPredefinedScraperRules E iteration websiteURL =
      match List.find (fun entry => strings_Contains (url_Domain E websiteURL) (fst entry))
              iteration with
      | Some entry => snd entry
      | None => ""
      end)
  /\ (forall it1 it2 : list (string * string),
         Scraper.iteration_of_predefinedRules E it1 ->
         Scraper.iteration_of_predefinedRules E it2 ->
         (forall d1 r1 d2 r2,
             predefinedRules E !! d1 = Some r1 -> predefinedRules E !! d2 = Some r2 ->
             strings_Contains (url_Domain E websiteURL) d1 = true ->
             strings_Contains (url_Domain E websiteURL) d2 = true -> r1 = r2) ->
         Scraper.getPredefinedScraperRules E it1 websiteURL =
         Scraper.getPredefinedScraperRules E it2 websiteURL).
Proof.
  unfold Scraper.getPredefinedScraperRules.
  split; [intros iteration; apply rangeRules_find|].
  intros it1 it2 H1 H2 Hsame.
  rewrite !rangeRules_find.
  assert (Hin : forall it d r, Scraper.iteration_of_predefinedRules E it ->
                               In (d, r) it -> predefinedRules E !! d = Some r).
  { intros it d r Hit Hdr. apply elem_of_map_to_list, list_elem_of_In.
    exact (Permutation_in _ Hit Hdr). }
  destruct (List.find _ it1) as [[d1 r1]|] eqn:F1;
    destruct (List.find _ it2) as [[d2 r2]|] eqn:F2; cbn [snd].
  - apply find_some in F1 as [I1 C1]. apply find_some in F2 as [I2 C2].
    eapply Hsame; eauto.
  - apply find_some in F1 as [I1 C1].
    assert (In (d1, r1) it2) as I2.
    { eapply Permutation_in; [|exact I1]. etransitivity; [exact H1|]. symmetry. exact H2. }
    pose proof (find_none _ _ F2 _ I2) as C2. cbn in C1, C2. congruence.
  - apply find_some in F2 as [I2 C2].
    assert (In (d2, r2) it1) as I1.
    { eapply Permutation_in; [|exact I2]. etransitivity; [exact H2|]. symmetry. exact H1. }
    pose proof (find_none _ _ F1 _ I1) as C1. cbn in C1, C2. congruence.
  - reflexivity.
Qed.

Lemma C8_witness :
  Scraper.getPredefinedScraperRules Demo.overlapping
    [("github.com", "article"); ("medium.com", "section")] "https://medium.com/post" =
  Scraper.getPredefinedScraperRules Demo.overlapping
    [("medium.com", "section"); ("github.com", "article")] "https://medium.com/post".
Proof.
  assert (map_to_list (predefinedRules Demo.overlapping) =
          [("github.com", "article"); ("medium.com", "section")]) as Htable
    by (vm_compute; reflexivity).
  apply (proj2 (C8_lookup Demo.overlapping "https://medium.com/post")
           [("github.com", "article"); ("medium.com", "section")]
           [("medium.com", "section"); ("github.com", "article")]).
  - unfold Scraper.iteration_of_predefinedRules. rewrite Htable. reflexivity.
  - unfold Scraper.iteration_of_predefinedRules. rewrite Htable. apply perm_swap.
  - intros d1 r1 d2 r2 H1 H2 C1 C2.
    apply elem_of_map_to_list in H1, H2. rewrite Htable in H1, H2.
    apply list_elem_of_In in H1, H2.
    destruct H1 as [H1|[H1|[]]]; inversion H1; subst;
      destruct H2 as [H2|[H2|[]]]; inversion H2; subst;
      first [reflexivity | vm_compute in C1; discriminate C1
             | vm_compute in C2; discriminate C2].
Defined.

(** C9 as stated fails: on a 404 the row written differs from the
    loaded one in checked_at too. *)
Lemma C9_counterexample :
  IsNotFound (Demo.serving Demo.gone) Demo.gone = true /\
  fst (Storage.FeedByID (Demo.serving Demo.gone) 1 7 (Demo.begin Demo.gone)) =
    Done (Some (Demo.loaded Demo.gone), None) /\
  exists row,
    updateFeedCalls
      (trace (snd (Handler.RefreshFeed (Demo.serving Demo.gone) 1 7 (Demo.begin Demo.gone)))) =
    [row]
    /\ Row.checked_at row = 100
    /\ Row.checked_at (Storage.row_of_feed (Demo.loaded Demo.gone) Demo.category) = 5
    /\ row <> withErrorColumns (Row.parsing_error_count row) (Row.parsing_error_msg row)
                (Storage.row_of_feed (Demo.loaded Demo.gone) Demo.category).
Proof.
  split; [reflexivity|]. split; [reflexivity|].
  eexists. split; [vm_compute; reflexivity|].
  split; [reflexivity|]. split; [reflexivity|].
  intros H. apply (f_equal Row.checked_at) in H. vm_compute in H. discriminate H.
Qed.

(** C9 (amended).  When the request itself fails, the row RefreshFeed
    writes before it returns the error is the loaded one with
    parsing_error_count one up and parsing_error_msg replaced, and nothing
    else changed.  When the request is answered with a 404 or a server
    failure, the row written is the loaded one with these two columns
    changed and with checked_at set to the time read after the fetch;
    every other column, the caching tokens and site_url included, is as
    loaded. *)
Theorem C9_fetch_failure_frame (E : Env) (userID feedID : Z) (x0 x2 : X E)
    (t0 : list (Event E)) (lang : Language E) (originalFeed : Feed) (category : Category) :
  loads E userID feedID x0 lang originalFeed category x2 ->
  (forall err x3,
      client_Get E (feedClient originalFeed) x2 = (Err err, x3) ->
      exists x' calls,
        Handler.RefreshFeed E userID feedID (mkWorld x0 t0) =
        (Done (Some (Localized (requestError err))), mkWorld x' (t0 ++ calls))
        /\ updateFeedCalls calls =
           [withErrorColumns (int_incr (Feed.ParsingErrorCount originalFeed))
              (Localize E (requestError err) lang)
              (Storage.row_of_feed originalFeed category)])
  /\ (forall response now x3 x4,
         client_Get E (feedClient originalFeed) x2 = (Ok response, x3) ->
         time_Now E x3 = (now, x4) ->
         IsNotFound E response = true \/ HasServerFailure E response = true ->
         exists x' calls,
           Handler.RefreshFeed E userID feedID (mkWorld x0 t0) =
           (Done (Some (Localized (if IsNotFound E response then notFoundError
                                   else serverFailureError response))),
            mkWorld x' (t0 ++ calls))
           /\ updateFeedCalls calls =
              [withErrorColumns (int_incr (Feed.ParsingErrorCount originalFeed))
                 (Localize E (if IsNotFound E response then notFoundError
                              else serverFailureError response) lang)
                 (withCheckedAtColumn now (Storage.row_of_feed originalFeed category))]).
Proof.
  intros Hloads. split.
  - intros err x3 HGet.
    destruct (refresh_request_failed E userID feedID x0 x2 t0 lang originalFeed category
                Hloads err x3 HGet) as [x' Hrun].
    eexists x', _. split; [exact Hrun|]. reflexivity.
  - intros response now x3 x4 HGet HNow Hfail.
    destruct (IsNotFound E response) eqn:H404.
    + destruct (refresh_not_found E userID feedID x0 x2 t0 lang originalFeed category
                  Hloads response x3 x4 now HGet HNow H404) as [x' Hrun].
      eexists x', _. split; [exact Hrun|]. reflexivity.
    + destruct Hfail as [Hfail|H5xx]; [discriminate Hfail|].
      destruct (refresh_server_failure E userID feedID x0 x2 t0 lang originalFeed category
                  Hloads response x3 x4 now HGet HNow H404 H5xx) as [x' Hrun].
      eexists x', _. split; [exact Hrun|]. reflexivity.
Qed.

Lemma C9_witness :
  exists x' calls,
    Handler.RefreshFeed (Demo.serving Demo.unavailable) 1 7 (Demo.begin Demo.unavailable) =
    (Done (Some (Localized
                   (if IsNotFound (Demo.serving Demo.unavailable) Demo.unavailable
                    then notFoundError else serverFailureError Demo.unavailable))),
     mkWorld x' ([] ++ calls))
    /\ updateFeedCalls calls =
       [withErrorColumns (int_incr (Feed.ParsingErrorCount (Demo.loaded Demo.unavailable)))
          (Localize (Demo.serving Demo.unavailable)
             (if IsNotFound (Demo.serving Demo.unavailable) Demo.unavailable
              then notFoundError else serverFailureError Demo.unavailable) "en_US")
          (withCheckedAtColumn 100
             (Storage.row_of_feed (Demo.loaded Demo.unavailable) Demo.category))].
Proof.
  apply (proj2 (C9_fetch_failure_frame (Demo.serving Demo.unavailable) 1 7
                  Demo.start Demo.start [] "en_US" (Demo.loaded Demo.unavailable)
                  Demo.category ltac:(demo_loads))
           Demo.unavailable 100 Demo.start Demo.ticked).
  - reflexivity.
  - reflexivity.
  - right. reflexivity.
Defined.

(** C10.  For every form and every feed that has a category, as every feed
    that FeedByID returns has, Merge returns that very feed with the ten
    fields of the form written onto it (the id of its category included),
    with ParsingErrorCount 0 and ParsingErrorMsg empty, whatever the form
    holds and whatever failure the feed had recorded, and with its other
    fields (ID, UserID, CheckedAt, the caching tokens, the title and the
    user of its category, the icon and the entries) as they were: the two
    error fields are reset together, on the feed that was passed. *)
Theorem C10_merge_clears_errors (f : FeedForm.t) (feed : Feed) (category : Category) :
  Feed.Category feed = Some category ->
  exists feed',
    FeedForm.Merge f feed = Done feed'
    /\ Feed.ParsingErrorCount feed' = 0%Z
    /\ Feed.ParsingErrorMsg feed' = ""
    /\ feed' =
       {| Feed.ID := Feed.ID feed;
          Feed.UserID := Feed.UserID feed;
          Feed.FeedURL := FeedForm.FeedURL f;
          Feed.SiteURL := FeedForm.SiteURL f;
          Feed.Title := FeedForm.Title f;
          Feed.CheckedAt := Feed.CheckedAt feed;
          Feed.EtagHeader := Feed.EtagHeader feed;
          Feed.LastModifiedHeader := Feed.LastModifiedHeader feed;
          Feed.ParsingErrorMsg := "";
          Feed.ParsingErrorCount := 0;
          Feed.ScraperRules := FeedForm.ScraperRules f;
          Feed.RewriteRules := FeedForm.RewriteRules f;
          Feed.Cookies := FeedForm.Cookies f;
          Feed.Crawler := FeedForm.Crawler f;
          Feed.Username := FeedForm.Username f;
          Feed.Password := FeedForm.Password f;
          Feed.Category :=
            Some {| Category.ID := FeedForm.CategoryID f;
                    Category.Title := Category.Title category;
                    Category.UserID := Category.UserID category |};
          Feed.Icon := Feed.Icon feed;
          Feed.Entries := Feed.Entries feed |}.
Proof.
  intros Hc. unfold FeedForm.Merge. rewrite Hc.
  eexists. split; [reflexivity|]. split; [reflexivity|]. split; reflexivity.
Qed.

Lemma C10_witness :
  exists feed',
    FeedForm.Merge Demo.form (Demo.loaded Demo.fresh) = Done feed'
    /\ Feed.ParsingErrorCount feed' = 0
    /\ Feed.ParsingErrorMsg feed' = ""
    /\ feed' =
       {| Feed.ID := Feed.ID (Demo.loaded Demo.fresh);
          Feed.UserID := Feed.UserID (Demo.loaded Demo.fresh);
          Feed.FeedURL := FeedForm.FeedURL Demo.form;
          Feed.SiteURL := FeedForm.SiteURL Demo.form;
          Feed.Title := FeedForm.Title Demo.form;
          Feed.CheckedAt := Feed.CheckedAt (Demo.loaded Demo.fresh);
          Feed.EtagHeader := Feed.EtagHeader (Demo.loaded Demo.fresh);
          Feed.LastModifiedHeader := Feed.LastModifiedHeader (Demo.loaded Demo.fresh);
          Feed.ParsingErrorMsg := "";
          Feed.ParsingErrorCount := 0;
          Feed.ScraperRules := FeedForm.ScraperRules Demo.form;
          Feed.RewriteRules := FeedForm.RewriteRules Demo.form;
          Feed.Cookies := FeedForm.Cookies Demo.form;
          Feed.Crawler := FeedForm.Crawler Demo.form;
          Feed.Username := FeedForm.Username Demo.form;
          Feed.Password := FeedForm.Password Demo.form;
          Feed.Category :=
            Some {| Category.ID := FeedForm.CategoryID Demo.form;
                    Category.Title := Category.Title Demo.category;
                    Category.UserID := Category.UserID Demo.category |};
          Feed.Icon := Feed.Icon (Demo.loaded Demo.fresh);
          Feed.Entries := Feed.Entries (Demo.loaded Demo.fresh) |}.
Proof.
  apply (C10_merge_clears_errors Demo.form (Demo.loaded Demo.fresh) Demo.category).
  reflexivity.
Defined.
